(** * clightd: the backlight service of Clight (src/clightd/src/clightd.c)

    A shallow embedding of the four brightness handlers, of
    [get_first_matching_device] and of the request loop of [main], with the
    properties its specification states about them.

    The handlers talk to three outside libraries.  They are modelled here
    by what the handlers can observe of them:
    - the C library: [atoi] and [sprintf] with the format "%d";
    - libudev: device objects over the sysfs attribute files;
    - sd-bus: the message of a call, the reply or the error of a handler,
      and the return codes of [sd_bus_process] and [sd_bus_wait]. *)

From Stdlib Require Import ZArith List String Ascii Bool Lia.
Import ListNotations.

Local Open Scope string_scope.
Local Open Scope Z_scope.

(** ** The C library *)

Module Libc.

Definition INT_MIN : Z := -2147483648.
Definition INT_MAX : Z := 2147483647.
Definition LONG_MIN : Z := -9223372036854775808.
Definition LONG_MAX : Z := 9223372036854775807.

(** Conversion of a [long] to [int]: the low 32 bits, two's complement. *)
Definition to_int (z : Z) : Z := (z + 2147483648) mod 4294967296 - 2147483648.

Definition isspace (c : ascii) : bool :=
  let n := nat_of_ascii c in
  (Nat.eqb n 32 || (Nat.leb 9 n && Nat.leb n 13))%bool.

Definition isdigit (c : ascii) : bool :=
  let n := nat_of_ascii c in (Nat.leb 48 n && Nat.leb n 57)%bool.

Definition digit_value (c : ascii) : Z := Z.of_nat (nat_of_ascii c) - 48.

Definition digit_char (d : Z) : ascii := ascii_of_nat (Z.to_nat (d + 48)).

Definition is_digit (d : Z) : Prop := 0 <= d <= 9.

Fixpoint skip_spaces (s : string) : string :=
  match s with
  | String c s' => if isspace c then skip_spaces s' else s
  | EmptyString => s
  end.

(** The digits loop of [strtol]: it stops at the first character that is
    not a digit, and a text without a leading digit is worth [acc]. *)
Fixpoint digits_value (acc : Z) (s : string) : Z :=
  match s with
  | String c s' =>
      if isdigit c then digits_value (10 * acc + digit_value c) s' else acc
  | EmptyString => acc
  end.

(** [strtol (s, NULL, 10)]: white space, an optional sign, digits; the
    result saturates at the bounds of [long]. *)
Definition strtol10 (s : string) : Z :=
  let s1 := skip_spaces s in
  let v :=
    match s1 with
    | String "-" r => - digits_value 0 r
    | String "+" r => digits_value 0 r
    | _ => digits_value 0 s1
    end in
  Z.max LONG_MIN (Z.min LONG_MAX v).

(** [atoi (s)] for a string [s]; glibc defines it as [(int) strtol (s, NULL, 10)].
    [atoi (NULL)] has no defined behaviour: callers handle it. *)
Definition atoi (s : string) : Z := to_int (strtol10 s).

(** The decimal digits of a natural number, least significant first. *)
Fixpoint le_digits (fuel : nat) (n : Z) : list Z :=
  match fuel with
  | O => []
  | S fuel' =>
      if n <? 10 then [n] else (n mod 10) :: le_digits fuel' (n / 10)
  end.

Definition le_value (ds : list Z) : Z :=
  fold_right (fun d acc => d + 10 * acc) 0 ds.

Definition string_of_chars (cs : list ascii) : string :=
  fold_right String EmptyString cs.

Definition digits_fuel (n : Z) : nat := S (Z.to_nat (Z.log2 n)).

Definition decimal_nat (n : Z) : string :=
  string_of_chars (map digit_char (rev (le_digits (digits_fuel n) n))).

(** The text [printf] writes for "%d". *)
Definition decimal (n : Z) : string :=
  if n <? 0 then String "-" (decimal_nat (- n)) else decimal_nat n.

(** [sprintf (buf, "%d", n)] into [char buf[size]]: the text and its
    terminating NUL must fit, writing past the array is not defined. *)
Definition sprintf_d (size : nat) (n : Z) : option string :=
  let s := decimal n in
  if Nat.leb (S (String.length s)) size then Some s else None.

Definition newline : string := String (ascii_of_nat 10) EmptyString.

End Libc.

(** ** libudev over sysfs *)

Module Udev.

(** One attribute file of a device directory: its text as libudev hands it
    out, and whether the calling process may write it. *)
Record sysattr : Type := mk_sysattr {
  attr_text : string;
  attr_writable : bool
}.

Record sysdev : Type := mk_sysdev {
  dev_subsystem : string;
  dev_sysname : string;
  dev_syspath : string;
  dev_attrs : list (string * sysattr)
}.

(** A [struct udev_device *]: the null pointer, a device object that
    libudev allocated, or any other value.  A local variable that was
    never assigned holds an indeterminate one of the three. *)
Inductive device_ptr : Type :=
| NULL
| Obj (id : nat)
| Wild.

Record device_obj : Type := mk_obj {
  obj_id : nat;
  obj_syspath : string;
  obj_sysname : string
}.

(** What the process does to the outside, newest first. *)
Inductive event : Type :=
| EvScan (subsystem : string)
| EvNewFromSyspath (path : string)
| EvNewFromSubsystemSysname (subsystem sysname : string)
| EvGetSysattr (id : nat) (attr : string)
| EvSetSysattr (id : nat) (attr value : string)
| EvUnref (id : nat)
| EvStdout (text : string)
| EvStderr (text : string) (errnum : Z).

(** The state a handler runs in: the sysfs devices in the order a scan
    lists them, the device objects not yet released, the next object
    identifier, and the trace. *)
Record process : Type := mk_process {
  sysfs : list sysdev;
  objects : list device_obj;
  next_id : nat;
  trace : list event
}.

Definition log (e : event) (p : process) : process :=
  mk_process (sysfs p) (objects p) (next_id p) (e :: trace p).

Definition alloc (d : sysdev) (p : process) : device_ptr * process :=
  (Obj (next_id p),
   mk_process (sysfs p)
     (mk_obj (next_id p) (dev_syspath d) (dev_sysname d) :: objects p)
     (S (next_id p)) (trace p)).

Definition with_sysfs (fs : list sysdev) (p : process) : process :=
  mk_process fs (objects p) (next_id p) (trace p).

Definition with_objects (os : list device_obj) (p : process) : process :=
  mk_process (sysfs p) os (next_id p) (trace p).

(** *** Lookups *)

Definition named (subsystem sysname : string) (d : sysdev) : bool :=
  (String.eqb (dev_subsystem d) subsystem && String.eqb (dev_sysname d) sysname)%bool.

Definition in_subsystem (subsystem : string) (d : sysdev) : bool :=
  String.eqb (dev_subsystem d) subsystem.

Definition at_path (path : string) (d : sysdev) : bool :=
  String.eqb (dev_syspath d) path.

Definition find_obj (id : nat) (os : list device_obj) : option device_obj :=
  find (fun o => Nat.eqb (obj_id o) id) os.

Definition remove_obj (id : nat) (os : list device_obj) : list device_obj :=
  filter (fun o => negb (Nat.eqb (obj_id o) id)) os.

Fixpoint assoc (k : string) (l : list (string * sysattr)) : option sysattr :=
  match l with
  | [] => None
  | (k', v) :: l' => if String.eqb k' k then Some v else assoc k l'
  end.

Fixpoint assoc_set (k : string) (text : string) (l : list (string * sysattr))
  : list (string * sysattr) :=
  match l with
  | [] => []
  | (k', v) :: l' =>
      if String.eqb k' k then (k', mk_sysattr text (attr_writable v)) :: l'
      else (k', v) :: assoc_set k text l'
  end.

(** Writing attribute [k] of the first device at [path]. *)
Fixpoint store (path k text : string) (fs : list sysdev) : list sysdev :=
  match fs with
  | [] => []
  | d :: fs' =>
      if at_path path d
      then mk_sysdev (dev_subsystem d) (dev_sysname d) (dev_syspath d)
             (assoc_set k text (dev_attrs d)) :: fs'
      else d :: store path k text fs'
  end.

(** The text of attribute [k] of the device at [path], as a read of the
    attribute file finds it. *)
Definition attr_at (path k : string) (fs : list sysdev) : option string :=
  match find (at_path path) fs with
  | Some d => option_map attr_text (assoc k (dev_attrs d))
  | None => None
  end.

Definition ENOENT : Z := 2.
Definition EACCES : Z := 13.
Definition EINVAL : Z := 22.
Definition ENXIO : Z := 6.

(** *** Computations: state passing, with undefined behaviour

    [Stuck] stands for an execution the C standard gives no meaning to
    (a wild or released pointer handed to libudev, [atoi (NULL)], a
    [sprintf] past the end of its buffer). *)

Inductive result (A : Type) : Type :=
| Done (a : A)
| Stuck.
Arguments Done {A} a.
Arguments Stuck {A}.

Definition M (A : Type) : Type := process -> result A * process.

Definition ret {A : Type} (a : A) : M A := fun p => (Done a, p).

Definition bind {A B : Type} (m : M A) (f : A -> M B) : M B :=
  fun p =>
    match m p with
    | (Done a, p') => f a p'
    | (Stuck, p') => (Stuck, p')
    end.

Definition undefined {A : Type} : M A := fun p => (Stuck, p).

Definition emit (e : event) : M unit := fun p => (Done tt, log e p).

Declare Scope udev_scope.
Delimit Scope udev_scope with udev.
Notation "x <- c1 ;; c2" := (bind c1 (fun x => c2))
  (at level 61, c1 at next level, right associativity) : udev_scope.
Notation "c1 ;; c2" := (bind c1 (fun _ => c2))
  (at level 61, right associativity) : udev_scope.
Local Open Scope udev_scope.

(** *** The libudev calls of clightd.c *)

Definition udev_device_new_from_subsystem_sysname (subsystem sysname : string)
  : M device_ptr :=
  emit (EvNewFromSubsystemSysname subsystem sysname) ;;
  fun p =>
    match find (named subsystem sysname) (sysfs p) with
    | Some d => let (ptr, p') := alloc d p in (Done ptr, p')
    | None => (Done NULL, p)
    end.

Definition udev_device_new_from_syspath (path : string) : M device_ptr :=
  emit (EvNewFromSyspath path) ;;
  fun p =>
    match find (at_path path) (sysfs p) with
    | Some d => let (ptr, p') := alloc d p in (Done ptr, p')
    | None => (Done NULL, p)
    end.

(** [udev_enumerate_new], [udev_enumerate_add_match_subsystem],
    [udev_enumerate_scan_devices], [udev_enumerate_get_list_entry] and
    [udev_enumerate_unref]: the syspaths of the devices of [subsystem]. *)
Definition udev_enumerate_scan (subsystem : string) : M (list string) :=
  emit (EvScan subsystem) ;;
  fun p => (Done (map dev_syspath (filter (in_subsystem subsystem) (sysfs p))), p).

(** Runs [k] on the object [dev] points to. *)
Definition on_object {A : Type} (dev : device_ptr) (if_null : M A)
    (k : device_obj -> M A) : M A :=
  match dev with
  | NULL => if_null
  | Obj id =>
      fun p =>
        match find_obj id (objects p) with
        | Some o => k o p
        | None => (Stuck, p)
        end
  | Wild => undefined
  end.

Definition udev_device_get_sysattr_value (dev : device_ptr) (attr : string)
  : M (option string) :=
  on_object dev (ret None) (fun o =>
    emit (EvGetSysattr (obj_id o) attr) ;;
    fun p => (Done (attr_at (obj_syspath o) attr (sysfs p)), p)).

Definition udev_device_set_sysattr_value (dev : device_ptr) (attr value : string)
  : M Z :=
  on_object dev (ret (- EINVAL)) (fun o =>
    emit (EvSetSysattr (obj_id o) attr value) ;;
    fun p =>
      match find (at_path (obj_syspath o)) (sysfs p) with
      | Some d =>
          match assoc attr (dev_attrs d) with
          | Some a =>
              if attr_writable a
              then (Done 0, with_sysfs (store (obj_syspath o) attr value (sysfs p)) p)
              else (Done (- EACCES), p)
          | None => (Done (- ENOENT), p)
          end
      | None => (Done (- ENOENT), p)
      end).

Definition udev_device_get_sysname (dev : device_ptr) : M (option string) :=
  on_object dev (ret None) (fun o => ret (Some (obj_sysname o))).

Definition udev_device_unref (dev : device_ptr) : M unit :=
  on_object dev (ret tt) (fun o =>
    emit (EvUnref (obj_id o)) ;;
    fun p => (Done tt, with_objects (remove_obj (obj_id o) (objects p)) p)).

End Udev.

(** ** sd-bus: messages, replies and errors *)

Module Bus.

Inductive bus_arg : Type :=
| ArgString (s : string)
| ArgInt (i : Z).

(** The arguments of a method call, in order. *)
Definition sd_bus_message : Type := list bus_arg.

Inductive bus_error : Type :=
| SD_BUS_ERROR_INVALID_ARGS
| SD_BUS_ERROR_FILE_NOT_FOUND
| SD_BUS_ERROR_ACCESS_DENIED.

(** How a handler ends: it replies with an integer, it sets [ret_error]
    and returns a negative code, or it returns the code of a failed
    [sd_bus_message_read]. *)
Inductive outcome : Type :=
| Reply (v : Z)
| Error (name : bus_error) (message : string) (code : Z)
| Returned (code : Z).

(** [sd_bus_message_read (m, "s", &s)] *)
Definition sd_bus_message_read_s (m : sd_bus_message) : string + Z :=
  match m with
  | ArgString s :: _ => inl s
  | _ => inr (- Udev.ENXIO)
  end.

(** [sd_bus_message_read (m, "si", &s, &i)] *)
Definition sd_bus_message_read_si (m : sd_bus_message) : (string * Z) + Z :=
  match m with
  | ArgString s :: ArgInt i :: _ => inl (s, i)
  | _ => inr (- Udev.ENXIO)
  end.

(** The error kinds of the specification, as the bus names them. *)
Definition InvalidArgument : bus_error := SD_BUS_ERROR_INVALID_ARGS.
Definition NotFound : bus_error := SD_BUS_ERROR_FILE_NOT_FOUND.
Definition AccessDenied : bus_error := SD_BUS_ERROR_ACCESS_DENIED.

(** A run of a handler that ends in an error reply of the given kind. *)
Definition fails_with (kind : bus_error) (r : Udev.result outcome) : Prop :=
  exists message code, r = Udev.Done (Error kind message code).

Definition is_error (o : outcome) : bool :=
  match o with
  | Error _ _ _ => true
  | _ => false
  end.

End Bus.

(** ** The handlers of clightd.c *)

Module Clightd.

Import Libc Udev Bus.
Local Open Scope udev_scope.

(** [atoi] of what [udev_device_get_sysattr_value] returned, which is
    [NULL] for an attribute that does not exist. *)
Definition atoi_of (text : option string) : M Z :=
  match text with
  | Some s => ret (atoi s)
  | None => undefined
  end.

(** [char val[10]; sprintf (val, "%d", value);] *)
Definition sprintf_val (value : Z) : M string :=
  match sprintf_d 10 value with
  | Some s => ret s
  | None => undefined
  end.

Definition printf_s (name : option string) : string :=
  match name with
  | Some s => s
  | None => "(null)"
  end.

(** [printf ("<what> value for %s: %d\n", udev_device_get_sysname (dev), x)] *)
Definition printf_value (what : string) (dev : device_ptr) (x : Z) : M unit :=
  name <- udev_device_get_sysname dev ;;
  emit (EvStdout (what ++ " value for " ++ printf_s name ++ ": " ++ decimal x ++ newline)).

Definition parse_failed (r : Z) : M outcome :=
  emit (EvStderr "Failed to parse parameters: " (- r)) ;;
  ret (Returned r).

(** Set [dev] to the first device in [subsystem].  The C function writes
    through its first argument only inside the loop body, so it gets the
    value the caller's variable holds and returns the one it holds
    afterwards. *)
Definition get_first_matching_device (dev : device_ptr) (subsystem : string)
  : M device_ptr :=
  devices <- udev_enumerate_scan subsystem ;;
  match devices with
  | path :: _ => udev_device_new_from_syspath path
  | [] => ret dev
  end.

(** Lines 59-63, 110-114, 145-149 and 180-184: the same statement in the
    four handlers.  [dev] is the local variable of the handler, declared
    without an initial value. *)
Definition resolve (dev : device_ptr) (subsystem backlight_interface : string)
  : M device_ptr :=
  if Nat.eqb (String.length backlight_interface) 0
  then get_first_matching_device dev subsystem
  else udev_device_new_from_subsystem_sysname subsystem backlight_interface.

Definition device_does_not_exist : outcome :=
  Error SD_BUS_ERROR_FILE_NOT_FOUND "Device does not exist." (-1).

Definition is_null (dev : device_ptr) : bool :=
  match dev with
  | NULL => true
  | _ => false
  end.

(** Brightness setter method.  [dev0] is the indeterminate value of the
    local variable [dev] on entry. *)
Definition method_setbrightness (dev0 : device_ptr) (m : sd_bus_message)
  : M outcome :=
  match sd_bus_message_read_si m with
  | inr r => parse_failed r
  | inl (backlight_interface, value) =>
      if value <? 0 then
        ret (Error SD_BUS_ERROR_INVALID_ARGS
               "Value must be greater or equal to 0." (- EINVAL))
      else
        dev <- resolve dev0 "backlight" backlight_interface ;;
        if is_null dev then ret device_does_not_exist
        else
          text <- udev_device_get_sysattr_value dev "max_brightness" ;;
          max <- atoi_of text ;;
          if max <? value then
            ret (Error SD_BUS_ERROR_INVALID_ARGS
                   ("Value must be smaller than " ++ decimal max ++ ".")
                   (- EINVAL))
          else
            val <- sprintf_val value ;;
            r <- udev_device_set_sysattr_value dev "brightness" val ;;
            if r <? 0 then
              udev_device_unref dev ;;
              ret (Error SD_BUS_ERROR_ACCESS_DENIED "Not authorized." r)
            else
              printf_value "New brightness" dev value ;;
              udev_device_unref dev ;;
              ret (Reply value)
  end.

(** Current brightness getter method. *)
Definition method_getbrightness (dev0 : device_ptr) (m : sd_bus_message)
  : M outcome :=
  match sd_bus_message_read_s m with
  | inr r => parse_failed r
  | inl backlight_interface =>
      dev <- resolve dev0 "backlight" backlight_interface ;;
      if is_null dev then ret device_does_not_exist
      else
        text <- udev_device_get_sysattr_value dev "brightness" ;;
        x <- atoi_of text ;;
        printf_value "Current brightness" dev x ;;
        udev_device_unref dev ;;
        ret (Reply x)
  end.

(** Max brightness value getter method. *)
Definition method_getmaxbrightness (dev0 : device_ptr) (m : sd_bus_message)
  : M outcome :=
  match sd_bus_message_read_s m with
  | inr r => parse_failed r
  | inl backlight_interface =>
      dev <- resolve dev0 "backlight" backlight_interface ;;
      if is_null dev then ret device_does_not_exist
      else
        text <- udev_device_get_sysattr_value dev "max_brightness" ;;
        x <- atoi_of text ;;
        printf_value "Max brightness" dev x ;;
        udev_device_unref dev ;;
        ret (Reply x)
  end.

(** Actual brightness value getter method. *)
Definition method_getactualbrightness (dev0 : device_ptr) (m : sd_bus_message)
  : M outcome :=
  match sd_bus_message_read_s m with
  | inr r => parse_failed r
  | inl backlight_interface =>
      dev <- resolve dev0 "backlight" backlight_interface ;;
      if is_null dev then ret device_does_not_exist
      else
        text <- udev_device_get_sysattr_value dev "actual_brightness" ;;
        x <- atoi_of text ;;
        printf_value "Actual brightness" dev x ;;
        udev_device_unref dev ;;
        ret (Reply x)
  end.

(** The three getters differ in the attribute they read and in the word
    they print. *)
Definition getter (attr what : string) (dev0 : device_ptr) (m : sd_bus_message)
  : M outcome :=
  match sd_bus_message_read_s m with
  | inr r => parse_failed r
  | inl backlight_interface =>
      dev <- resolve dev0 "backlight" backlight_interface ;;
      if is_null dev then ret device_does_not_exist
      else
        text <- udev_device_get_sysattr_value dev attr ;;
        x <- atoi_of text ;;
        printf_value what dev x ;;
        udev_device_unref dev ;;
        ret (Reply x)
  end.

(** *** The request loop of [main] (lines 292-311) and its exit

    The transport is the list of the codes that the calls of
    [sd_bus_process] and [sd_bus_wait] return, in the order of the calls.
    When the list runs out the process is still in the loop: at the call
    of [sd_bus_process] ([Draining]) or at the call of [sd_bus_wait]
    ([Waiting]).  A negative code sends it to [finish] with that code. *)

Inductive loop_state : Type :=
| Draining
| Waiting
| Finished (r : Z).

(** Gives the state reached and the codes that no call consumed. *)
Fixpoint request_loop (codes : list Z) : loop_state * list Z :=
  match codes with
  | [] => (Draining, [])
  | r :: codes1 =>
      (* r = sd_bus_process (bus, NULL) *)
      if r <? 0 then (Finished r, codes1)
      else if 0 <? r then request_loop codes1
      else
        match codes1 with
        | [] => (Waiting, [])
        | r' :: codes2 =>
            (* r = sd_bus_wait (bus, (uint64_t) -1) *)
            if r' <? 0 then (Finished r', codes2)
            else request_loop codes2
        end
  end.

Definition EXIT_SUCCESS : Z := 0.
Definition EXIT_FAILURE : Z := 1.

(** [return r < 0 ? EXIT_FAILURE : EXIT_SUCCESS;] *)
Definition exit_status (s : loop_state) : option Z :=
  match s with
  | Finished r => Some (if r <? 0 then EXIT_FAILURE else EXIT_SUCCESS)
  | _ => None
  end.

(** *** The state machine of the specification (section 4.4)

    Start in Draining; after a call was dispatched remain in Draining,
    with nothing queued go to Waiting; a call that arrives while Waiting
    leads back to Draining; a transport error ends the process. *)

Definition machine_step (s : loop_state) (r : Z) : loop_state :=
  match s with
  | Draining =>
      if r <? 0 then Finished r
      else if 0 <? r then Draining
      else Waiting
  | Waiting =>
      if r <? 0 then Finished r else Draining
  | Finished r0 => Finished r0
  end.

Fixpoint machine_run (s : loop_state) (codes : list Z) : loop_state * list Z :=
  match s, codes with
  | Finished _, _ => (s, codes)
  | _, [] => (s, [])
  | _, r :: codes' => machine_run (machine_step s r) codes'
  end.

Definition running (s : loop_state) : bool :=
  match s with
  | Finished _ => false
  | _ => true
  end.

End Clightd.

(** ** Vocabulary of the statements, and some machines *)

Module World.

Import Libc Udev Bus Clightd.

(** The device a request names, by its syspath: the device of that name
    in the subsystem, or for the empty name the first one a scan lists. *)
Definition target (subsystem name : string) (fs : list sysdev) : option string :=
  if String.eqb name ""
  then hd_error (map dev_syspath (filter (in_subsystem subsystem) fs))
  else option_map dev_syspath (find (named subsystem name) fs).

Definition writable_at (path k : string) (fs : list sysdev) : bool :=
  match find (at_path path) fs with
  | Some d =>
      match assoc k (dev_attrs d) with
      | Some a => attr_writable a
      | None => false
      end
  | None => false
  end.

(** The text and its NUL fit [char val[10]]. *)
Definition fits_val (value : Z) : Prop :=
  (String.length (decimal value) < 10)%nat.

Definition is_set_sysattr (e : event) : bool :=
  match e with
  | EvSetSysattr _ _ _ => true
  | _ => false
  end.

(** A text that is an integer and nothing else: an optional sign and at
    least one digit (section 4.2, "parsable as an integer"). *)
Fixpoint all_digits (s : string) : bool :=
  match s with
  | EmptyString => true
  | String c s' => (isdigit c && all_digits s')%bool
  end.

Definition is_integer_text (s : string) : bool :=
  match s with
  | String "-" r | String "+" r => (negb (String.eqb r "") && all_digits r)%bool
  | _ => (negb (String.eqb s "") && all_digits s)%bool
  end.

Definition head_is_digit (s : string) : bool :=
  match s with
  | String c _ => isdigit c
  | EmptyString => false
  end.

(** The text starts, after white space, with a number as [strtol] reads
    one: an optional sign and a digit. *)
Definition starts_number (s : string) : bool :=
  match skip_spaces s with
  | String "-" r | String "+" r => head_is_digit r
  | s1 => head_is_digit s1
  end.

Definition ro (text : string) : sysattr := mk_sysattr text false.

Definition backlight (name brightness max : string) (writable : bool) : sysdev :=
  mk_sysdev "backlight" name ("/sys/class/backlight/" ++ name)
    [("brightness", mk_sysattr brightness writable);
     ("max_brightness", ro max);
     ("actual_brightness", ro brightness)].

Definition boot (fs : list sysdev) : process := mk_process fs [] 0 [].

(** The state after a device object for [path] was created on [p], with
    the events [evs] since. *)
Definition opened (p : process) (path sysname : string) (evs : list event)
  : process :=
  mk_process (sysfs p) (mk_obj (next_id p) path sysname :: objects p)
    (S (next_id p)) (evs ++ trace p).

Definition quiet (evs : list event) : Prop :=
  Forall (fun e => is_set_sysattr e = false) evs.

(** The scenario of section 8: "intel_backlight" has max 100, current 40. *)
Definition laptop : process := boot [backlight "intel_backlight" "40" "100" true].

(** No backlight device at all, a camera only. *)
Definition headless : process :=
  boot [mk_sysdev "video4linux" "video0" "/sys/class/video4linux/video0" []].

(** A device node whose brightness file does not hold a number. *)
Definition garbled : process := boot [backlight "acpi_video0" "abc" "15" true].

(** The brightness file is not writable by the service. *)
Definition locked : process := boot [backlight "intel_backlight" "40" "100" false].

(** A driver whose scale is the whole range of [int]. *)
Definition wide : process := boot [backlight "wide0" "0" "2147483647" true].

(** A computation that writes no attribute: the store is the same after
    it, and it made no call of [udev_device_set_sysattr_value]. *)
Definition read_only {A : Type} (m : M A) : Prop :=
  forall p,
    sysfs (snd (m p)) = sysfs p /\
    exists evs : list event, trace (snd (m p)) = (evs ++ trace p)%list /\ quiet evs.

(** What the attribute files say of the device a request names. *)
Definition current (attr name : string) (fs : list sysdev) : option Z :=
  match target "backlight" name fs with
  | Some path => option_map atoi (attr_at path attr fs)
  | None => None
  end.

Definition current_max : string -> list sysdev -> option Z :=
  current "max_brightness".

Definition current_brightness : string -> list sysdev -> option Z :=
  current "brightness".

Definition brightness_writable (name : string) (fs : list sysdev) : bool :=
  match target "backlight" name fs with
  | Some path => writable_at path "brightness" fs
  | None => false
  end.

Definition nonnegative (codes : list Z) : Prop := Forall (fun r => 0 <= r) codes.

Definition call_s (name : string) : sd_bus_message := [ArgString name].
Definition call_si (name : string) (value : Z) : sd_bus_message :=
  [ArgString name; ArgInt value].

End World.

(** ** Device objects and their identifiers *)

Module Objects.

Import Udev.

(** Every device object that is still allocated got its identifier before
    [next_id]: libudev never hands out an address that is in use. *)
Definition fresh (p : process) : Prop :=
  Forall (fun o => (obj_id o < next_id p)%nat) (objects p).

(** A run of the setter from [p] that ended with [r] in [p'] and wrote
    nothing: the store is the same, the result is no success, and every
    return code of an error is negative. *)
Definition unwritten (p : process) (r : result Bus.outcome) (p' : process) : Prop :=
  sysfs p' = sysfs p /\
  (forall v, r <> Done (Bus.Reply v)) /\
  (forall k msg c, r = Done (Bus.Error k msg c) -> c < 0) /\
  (forall c, r = Done (Bus.Returned c) -> c < 0).

(** A run that ended without a defined execution or with an error reply
    of a negative return code, the store as it was. *)
Definition failed (p : process) (r : result Bus.outcome) (p' : process) : Prop :=
  sysfs p' = sysfs p /\
  (r = Stuck \/ exists k msg c, c < 0 /\ r = Done (Bus.Error k msg c)).

(** A run of the setter that wrote: [value] is within the range that the
    max_brightness file of the device gives, its decimal text went into the
    brightness file of the same device, and the reply is [value]. *)
Definition written (p : process) (name : string) (value : Z)
    (r : result Bus.outcome) (p' : process) : Prop :=
  exists path text,
    0 <= value <= Libc.atoi text /\
    World.fits_val value /\
    attr_at path "max_brightness" (sysfs p) = Some text /\
    World.writable_at path "brightness" (sysfs p) = true /\
    r = Done (Bus.Reply value) /\
    sysfs p' = store path "brightness" (Libc.decimal value) (sysfs p) /\
    (forall path0, World.target "backlight" name (sysfs p) = Some path0 -> path0 = path).

(** The three getters with the attribute each one reads. *)
Definition getters
  : list (string * (device_ptr -> Bus.sd_bus_message -> M Bus.outcome)) :=
  [("brightness", Clightd.method_getbrightness);
   ("max_brightness", Clightd.method_getmaxbrightness);
   ("actual_brightness", Clightd.method_getactualbrightness)].

(** The local pointer of a handler is harmless on [m] in [p]: a request
    with the empty name that finds nothing to scan meets it null. *)
Definition pointer_harmless (read : Bus.sd_bus_message -> option string)
    (dev0 : device_ptr) (m : Bus.sd_bus_message) (p : process) : Prop :=
  read m = Some ""%string ->
  World.target "backlight" "" (sysfs p) = None ->
  dev0 = NULL.

Definition name_s (m : Bus.sd_bus_message) : option string :=
  match Bus.sd_bus_message_read_s m with
  | inl name => Some name
  | inr _ => None
  end.

Definition name_si (m : Bus.sd_bus_message) : option string :=
  match Bus.sd_bus_message_read_si m with
  | inl (name, _) => Some name
  | inr _ => None
  end.

(** Every brightness file that has a max_brightness file beside it holds
    a value between 0 and that max. *)
Definition in_range (fs : list sysdev) : Prop :=
  forall path b m,
    attr_at path "brightness" fs = Some b ->
    attr_at path "max_brightness" fs = Some m ->
    0 <= Libc.atoi b <= Libc.atoi m.


End Objects.

(** ** The frame capture handler, the method table and its dispatch *)

Module Capture.

Import Libc Udev Bus Clightd.
Local Open Scope udev_scope.

Section WithCamera.

(** [../inc/camera.h] is not among the sources, and the device records
    above hold no device file.  What [method_captureframes] takes from
    them is a parameter: the type [double], the value [capture_frames]
    returns for a device file and a number of frames, the device file
    of the device at a syspath ([udev_device_get_devnode]), and the text
    [printf] writes for "%lf". *)
Variable double : Type.
Variable capture_frames : option string -> Z -> double.
Variable devnode : string -> option string.
Variable printf_lf : double -> string.

(** How [method_captureframes] ends: as the other handlers, with a reply
    of type "d". *)
Inductive capture_outcome : Type :=
| CaptureReply (val : double)
| CaptureError (name : bus_error) (message : string) (code : Z)
| CaptureReturned (code : Z).

Definition udev_device_get_devnode (dev : device_ptr) : M (option string) :=
  on_object dev (ret None) (fun o => ret (devnode (obj_syspath o))).

(** Frames capturing method. *)
Definition method_captureframes (dev0 : device_ptr) (m : sd_bus_message)
  : M capture_outcome :=
  match sd_bus_message_read_si m with
  | inr r =>
      emit (EvStderr "Failed to parse parameters: " (- r)) ;;
      ret (CaptureReturned r)
  | inl (video_interface, num_frames) =>
      dev <- resolve dev0 "video4linux" video_interface ;;
      if is_null dev then
        ret (CaptureError SD_BUS_ERROR_FILE_NOT_FOUND "Device does not exist." (-1))
      else
        node <- udev_device_get_devnode dev ;;
        let val := capture_frames node num_frames in
        name <- udev_device_get_sysname dev ;;
        emit (EvStdout ("Frames captured by " ++ printf_s name ++
                        " average brightness value: " ++ printf_lf val ++ newline)) ;;
        udev_device_unref dev ;;
        ret (CaptureReply val)
  end.

(** *** [calculator_vtable] *)

Inductive method_outcome : Type :=
| OfInt (o : outcome)
| OfDouble (o : capture_outcome).

Definition handler : Type := device_ptr -> sd_bus_message -> M method_outcome.

Definition int_handler (h : device_ptr -> sd_bus_message -> M outcome) : handler :=
  fun dev0 m => o <- h dev0 m ;; ret (OfInt o).

Definition double_handler (h : device_ptr -> sd_bus_message -> M capture_outcome)
  : handler :=
  fun dev0 m => o <- h dev0 m ;; ret (OfDouble o).

(** [SD_BUS_METHOD (member, signature, result, handler, flags)] *)
Record vtable_entry : Type := SD_BUS_METHOD {
  vt_member : string;
  vt_signature : string;
  vt_result : string;
  vt_handler : handler;
  vt_unprivileged : bool
}.

(** The table of the build with frame captures (DISABLE_FRAME_CAPTURES
    not defined). *)
Definition calculator_vtable : list vtable_entry :=
  [SD_BUS_METHOD "setbrightness" "si" "i" (int_handler method_setbrightness) true;
   SD_BUS_METHOD "getbrightness" "s" "i" (int_handler method_getbrightness) true;
   SD_BUS_METHOD "getmaxbrightness" "s" "i" (int_handler method_getmaxbrightness) true;
   SD_BUS_METHOD "getactualbrightness" "s" "i"
     (int_handler method_getactualbrightness) true;
   SD_BUS_METHOD "captureframes" "si" "d" (double_handler method_captureframes) true].

(** *** The dispatch of sd-bus over the table

    [sd_bus_process] hands a method call to the handler that the table
    registers under its member name, after it compared the signature of
    the arguments with the registered one; it answers a call of an unknown
    member or of another signature itself, without the handler. *)

Definition type_code (a : bus_arg) : string :=
  match a with
  | ArgString _ => "s"
  | ArgInt _ => "i"
  end.

Definition signature_of (m : sd_bus_message) : string :=
  String.concat "" (map type_code m).

Record method_call : Type := mk_call {
  call_member : string;
  call_args : sd_bus_message
}.

Definition find_method (member : string) : option vtable_entry :=
  find (fun e => String.eqb (vt_member e) member) calculator_vtable.

(** [dev0] is what the local pointer of the handler holds on entry. *)
Definition dispatch (dev0 : device_ptr) (c : method_call) : M (option method_outcome) :=
  match find_method (call_member c) with
  | Some e =>
      if String.eqb (vt_signature e) (signature_of (call_args c))
      then o <- vt_handler e dev0 (call_args c) ;; ret (Some o)
      else ret None
  | None => ret None
  end.

(** What the dispatch makes of the run of a handler. *)
Definition answered {A : Type} (inj : A -> method_outcome)
    (run : result A * process) : result (option method_outcome) * process :=
  (match fst run with
   | Done o => Done (Some (inj o))
   | Stuck => Stuck
   end, snd run).

(** Calls served one after the other, each to its end before the next; a
    call without a defined execution ends the service. *)
Fixpoint serve (calls : list (device_ptr * method_call)) (p : process) : process :=
  match calls with
  | [] => p
  | (dev0, c) :: calls' =>
      match dispatch dev0 c p with
      | (Done _, p') => serve calls' p'
      | (Stuck, p') => p'
      end
  end.

End WithCamera.

Arguments CaptureReply {double} val.
Arguments CaptureError {double} name message code.
Arguments CaptureReturned {double} code.
Arguments OfInt {double} o.
Arguments OfDouble {double} o.
Arguments answered {double A} inj run.
Arguments double_handler {double} h.

End Capture.

(** ** [main], from [udev_new] to its return *)

Module Main.

Import Clightd.

Definition object_path : string := "/org/clight/backlight".
Definition bus_interface : string := "org.clight.backlight".

(** What [main] does, in order.  The codes are those the calls return. *)
Inductive main_event : Type :=
| UdevNew
| BusDefaultSystem (r : Z)
| BusAddObjectVtable (path interface : string) (r : Z)
| BusRequestName (name : string) (r : Z)
| BusProcess (r : Z)
| BusWait (r : Z)
| Stderr (text : string) (errnum : Z)
| SlotUnref
| BusUnref
| UdevUnref
| Return (status : Z).

(** The label [finish].  [slot] and [bus] tell whether the variable is
    not null: both start as NULL, and sd-bus assigns them only when
    [sd_bus_add_object_vtable] and [sd_bus_default_system] succeed. *)
Definition finish (slot bus : bool) (r : Z) : list main_event :=
  (if slot then [SlotUnref] else []) ++
  (if bus then [BusUnref] else []) ++
  [UdevUnref; Return (if r <? 0 then EXIT_FAILURE else EXIT_SUCCESS)].

(** The loop with what follows it: the events from the first
    [sd_bus_process] on, and the codes that no call consumed.  When the
    codes run out the process is blocked in the next call. *)
Fixpoint serve_loop (codes : list Z) : list main_event * list Z :=
  match codes with
  | [] => ([], [])
  | r :: codes1 =>
      if r <? 0 then
        (BusProcess r :: Stderr "Failed to process bus: " (- r) :: finish true true r,
         codes1)
      else if 0 <? r then
        let (t, rest) := serve_loop codes1 in (BusProcess r :: t, rest)
      else
        match codes1 with
        | [] => ([BusProcess r], [])
        | r' :: codes2 =>
            if r' <? 0 then
              (BusProcess r :: BusWait r' ::
               Stderr "Failed to wait on bus: " (- r') :: finish true true r',
               codes2)
            else
              let (t, rest) := serve_loop codes2 in
              (BusProcess r :: BusWait r' :: t, rest)
        end
  end.

Definition main (codes : list Z) : list main_event * list Z :=
  match codes with
  | [] => ([UdevNew], [])
  | r1 :: codes1 =>
      if r1 <? 0 then
        (UdevNew :: BusDefaultSystem r1 ::
         Stderr "Failed to connect to system bus: " (- r1) :: finish false false r1,
         codes1)
      else
        match codes1 with
        | [] => ([UdevNew; BusDefaultSystem r1], [])
        | r2 :: codes2 =>
            if r2 <? 0 then
              (UdevNew :: BusDefaultSystem r1 ::
               BusAddObjectVtable object_path bus_interface r2 ::
               Stderr "Failed to issue method call: " (- r2) :: finish false true r2,
               codes2)
            else
              match codes2 with
              | [] =>
                  ([UdevNew; BusDefaultSystem r1;
                    BusAddObjectVtable object_path bus_interface r2], [])
              | r3 :: codes3 =>
                  if r3 <? 0 then
                    (UdevNew :: BusDefaultSystem r1 ::
                     BusAddObjectVtable object_path bus_interface r2 ::
                     BusRequestName bus_interface r3 ::
                     Stderr "Failed to acquire service name: " (- r3) ::
                     finish true true r3,
                     codes3)
                  else
                    let (t, rest) := serve_loop codes3 in
                    (UdevNew :: BusDefaultSystem r1 ::
                     BusAddObjectVtable object_path bus_interface r2 ::
                     BusRequestName bus_interface r3 :: t,
                     rest)
              end
        end
  end.

(** *** Reading a trace *)

(** The status [main] returned, when it did. *)
Fixpoint exit_code (t : list main_event) : option Z :=
  match t with
  | [] => None
  | Return status :: _ => Some status
  | _ :: t' => exit_code t'
  end.

Definition is_release (e : main_event) : bool :=
  match e with
  | SlotUnref | BusUnref | UdevUnref => true
  | _ => false
  end.

Definition is_serving (e : main_event) : bool :=
  match e with
  | BusProcess _ | BusWait _ => true
  | _ => false
  end.

Definition got_bus (e : main_event) : bool :=
  match e with
  | BusDefaultSystem r => 0 <=? r
  | _ => false
  end.

Definition got_slot (e : main_event) : bool :=
  match e with
  | BusAddObjectVtable _ _ r => 0 <=? r
  | _ => false
  end.

Definition negative (r : Z) : bool := r <? 0.

(** The codes after the first negative one. *)
Fixpoint after_error (codes : list Z) : list Z :=
  match codes with
  | [] => []
  | r :: codes' => if r <? 0 then codes' else after_error codes'
  end.

(** [a] comes directly before [b] in [t]. *)
Definition adjacent (a b : main_event) (t : list main_event) : Prop :=
  exists pre post, t = (pre ++ a :: b :: post)%list.

(** The order of the two calls of the loop, for one event and the next:
    [sd_bus_wait] comes only after an [sd_bus_process] that found nothing
    to do, and always then; after work was done and after a wait comes
    [sd_bus_process]. *)
Definition in_step (a b : main_event) : Prop :=
  (forall r, b = BusWait r -> a = BusProcess 0) /\
  (a = BusProcess 0 -> exists r, b = BusWait r) /\
  (forall r, a = BusProcess r -> 0 < r -> exists r', b = BusProcess r') /\
  (forall r, a = BusWait r -> 0 <= r -> exists r', b = BusProcess r').

(** A trace in which every event and the next are in step. *)
Definition paced (t : list main_event) : Prop :=
  forall a b, adjacent a b t -> in_step a b.

End Main.

(** * Properties *)

(** ** [atoi] reads back what [sprintf] wrote *)

Module LibcFacts.

Import Libc.

Example atoi_plain : atoi "60" = 60.
Proof. reflexivity. Qed.

Example atoi_prefix : atoi "  -17abc" = -17.
Proof. reflexivity. Qed.

Example atoi_saturates : atoi "99999999999999999999" = -1.
Proof. reflexivity. Qed.

Example sprintf_nine_digits : sprintf_d 10 999999999 = Some "999999999".
Proof. reflexivity. Qed.

Lemma digit_cases (d : Z) :
  is_digit d ->
  d = 0 \/ d = 1 \/ d = 2 \/ d = 3 \/ d = 4 \/
  d = 5 \/ d = 6 \/ d = 7 \/ d = 8 \/ d = 9.
Proof. unfold is_digit; lia. Qed.

Ltac each_digit d H :=
  destruct (digit_cases d H) as
    [->|[->|[->|[->|[->|[->|[->|[->|[->| ->]]]]]]]]].

Lemma isdigit_digit_char (d : Z) : is_digit d -> isdigit (digit_char d) = true.
Proof. intros H; each_digit d H; reflexivity. Qed.

Lemma digit_value_digit_char (d : Z) :
  is_digit d -> digit_value (digit_char d) = d.
Proof. intros H; each_digit d H; reflexivity. Qed.

Lemma le_digits_are_digits (fuel : nat) :
  forall n, 0 <= n -> Forall is_digit (le_digits fuel n).
Proof.
  induction fuel as [|fuel IH]; intros n Hn; simpl.
  - constructor.
  - destruct (Z.ltb_spec n 10).
    + repeat constructor; lia.
    + constructor.
      * unfold is_digit. pose proof (Z.mod_pos_bound n 10). lia.
      * apply IH. apply Z.div_pos; lia.
Qed.

Lemma le_digits_value (fuel : nat) :
  forall n, 0 <= n < 2 ^ Z.of_nat fuel -> le_value (le_digits fuel n) = n.
Proof.
  induction fuel as [|fuel IH]; intros n Hn.
  - simpl in *. lia.
  - cbn [le_digits]. destruct (Z.ltb_spec n 10).
    + simpl. lia.
    + cbn [le_value fold_right]. fold (le_value (le_digits fuel (n / 10))).
      rewrite IH.
      * pose proof (Z.div_mod n 10). lia.
      * rewrite Nat2Z.inj_succ, Z.pow_succ_r in Hn by lia.
        split; [apply Z.div_pos; lia|].
        apply Z.div_lt_upper_bound; lia.
Qed.

Lemma digits_fuel_enough (n : Z) : 0 <= n -> 0 <= n < 2 ^ Z.of_nat (digits_fuel n).
Proof.
  intros Hn. split; [exact Hn|]. unfold digits_fuel.
  rewrite Nat2Z.inj_succ, Z2Nat.id by apply Z.log2_nonneg.
  destruct (Z.eq_dec n 0) as [->|Hz]; [reflexivity|].
  apply Z.log2_spec. lia.
Qed.

(** The digits loop on a text of digits, most significant first. *)
Lemma digits_value_chars (ds : list Z) :
  Forall is_digit ds ->
  forall acc rest,
    digits_value acc (string_of_chars (map digit_char ds) ++ rest) =
    digits_value (fold_left (fun a d => 10 * a + d) ds acc) rest.
Proof.
  induction 1 as [|d ds Hd _ IH]; intros acc rest; simpl.
  - reflexivity.
  - rewrite (isdigit_digit_char d Hd), (digit_value_digit_char d Hd).
    apply IH.
Qed.

Lemma fold_left_rev_value (ds : list Z) :
  fold_left (fun a d => 10 * a + d) (rev ds) 0 = le_value ds.
Proof.
  induction ds as [|d ds IH]; cbn [rev].
  - reflexivity.
  - rewrite fold_left_app. cbn [fold_left]. rewrite IH.
    unfold le_value. cbn [fold_right]. lia.
Qed.

Lemma append_empty (s : string) : (s ++ "")%string = s.
Proof. induction s as [|c s IH]; simpl; [reflexivity | now rewrite IH]. Qed.

Lemma digits_value_decimal_nat (n : Z) :
  0 <= n -> digits_value 0 (decimal_nat n) = n.
Proof.
  intros Hn. unfold decimal_nat.
  rewrite <- (append_empty (string_of_chars _)).
  rewrite digits_value_chars.
  - cbn [digits_value]. rewrite fold_left_rev_value.
    apply le_digits_value, digits_fuel_enough, Hn.
  - apply Forall_rev, le_digits_are_digits, Hn.
Qed.

(** The text of a natural number starts with a digit: [strtol] finds
    neither white space nor a sign to skip. *)
Lemma decimal_nat_head (n : Z) :
  0 <= n ->
  exists d rest, is_digit d /\ decimal_nat n = String (digit_char d) rest.
Proof.
  intros Hn. unfold decimal_nat.
  pose proof (le_digits_are_digits (digits_fuel n) n Hn) as Hall.
  apply Forall_rev in Hall.
  destruct (rev (le_digits (digits_fuel n) n)) as [|d ds] eqn:E.
  - apply (f_equal (@List.length Z)) in E. rewrite length_rev in E.
    unfold digits_fuel in E. cbn [le_digits] in E.
    destruct (n <? 10); discriminate.
  - inversion Hall; subst. exists d, (string_of_chars (map digit_char ds)).
    split; [assumption | reflexivity].
Qed.

Lemma strtol10_digit_head (d : Z) (rest : string) :
  is_digit d ->
  strtol10 (String (digit_char d) rest) =
  Z.max LONG_MIN (Z.min LONG_MAX (digits_value 0 (String (digit_char d) rest))).
Proof. intros H; each_digit d H; reflexivity. Qed.

Lemma atoi_range (s : string) : INT_MIN <= atoi s <= INT_MAX.
Proof.
  unfold atoi, to_int, INT_MIN, INT_MAX.
  pose proof (Z.mod_pos_bound (strtol10 s + 2147483648) 4294967296). lia.
Qed.

Lemma digits_value_no_head (acc : Z) (s : string) :
  World.head_is_digit s = false -> digits_value acc s = acc.
Proof. destruct s as [|c s]; simpl; [reflexivity | now intros ->]. Qed.

(** A text that does not start with a number is worth 0. *)
Lemma atoi_no_number (s : string) : World.starts_number s = false -> atoi s = 0.
Proof.
  unfold atoi, strtol10, World.starts_number.
  destruct (skip_spaces s) as [|c r]; [reflexivity|].
  destruct c as [[] [] [] [] [] [] [] []]; intros H;
    rewrite (digits_value_no_head 0 _ H); reflexivity.
Qed.

Lemma atoi_decimal (n : Z) : 0 <= n <= INT_MAX -> atoi (decimal n) = n.
Proof.
  intros [Hlo Hhi]. unfold atoi, decimal.
  destruct (Z.ltb_spec n 0); [lia|].
  destruct (decimal_nat_head n Hlo) as (d & rest & Hd & E).
  pose proof (digits_value_decimal_nat n Hlo) as V.
  rewrite E in *. rewrite (strtol10_digit_head d rest Hd), V.
  unfold INT_MAX, LONG_MIN, LONG_MAX, to_int in *.
  rewrite Z.min_r, Z.max_r by lia.
  rewrite Z.mod_small by lia. lia.
Qed.

End LibcFacts.

(** ** The attribute store *)

Module StoreFacts.

Import Libc Udev Bus Clightd World.

Lemma length_zero_eqb (name : string) :
  Nat.eqb (String.length name) 0 = String.eqb name "".
Proof. destruct name; reflexivity. Qed.

Lemma find_at_path (path : string) (fs : list sysdev) (d : sysdev) :
  find (at_path path) fs = Some d -> dev_syspath d = path.
Proof.
  intros H. apply find_some in H. destruct H as [_ H].
  unfold at_path in H. now apply String.eqb_eq.
Qed.

(** A path that a scan lists is the path of a device. *)
Lemma find_listed (subsystem : string) (fs : list sysdev) (path : string) (rest : list string) :
  map dev_syspath (filter (in_subsystem subsystem) fs) = path :: rest ->
  exists d, find (at_path path) fs = Some d.
Proof.
  intros H.
  assert (In path (map dev_syspath (filter (in_subsystem subsystem) fs))) as Hin
    by (rewrite H; left; reflexivity).
  apply in_map_iff in Hin. destruct Hin as (d & Hp & Hd).
  apply filter_In in Hd. destruct Hd as [Hd _].
  destruct (find (at_path path) fs) as [d'|] eqn:E; [eauto|].
  exfalso. apply (find_none _ _ E) in Hd.
  unfold at_path in Hd. rewrite Hp, String.eqb_refl in Hd. discriminate.
Qed.

Lemma assoc_assoc_set (k text : string) (l : list (string * sysattr)) (a : sysattr) :
  assoc k l = Some a ->
  assoc k (assoc_set k text l) = Some (mk_sysattr text (attr_writable a)).
Proof.
  induction l as [|[k' v] l IH]; simpl; [discriminate|].
  destruct (String.eqb k' k) eqn:E; simpl; rewrite E.
  - now intros [= ->].
  - exact IH.
Qed.

Lemma attr_at_store (path k text : string) (fs : list sysdev) (old : string) :
  attr_at path k fs = Some old ->
  attr_at path k (store path k text fs) = Some text.
Proof.
  unfold attr_at. induction fs as [|d fs IH]; simpl; [discriminate|].
  destruct (at_path path d) eqn:E; simpl.
  - unfold at_path in *. simpl. rewrite E.
    destruct (assoc k (dev_attrs d)) as [a|] eqn:Ea; [|discriminate].
    intros _. cbn [dev_attrs]. now rewrite (assoc_assoc_set _ _ _ _ Ea).
  - rewrite E. exact IH.
Qed.

Lemma find_named_store (subsystem name path k text : string) (fs : list sysdev) :
  option_map dev_syspath (find (named subsystem name) (store path k text fs)) =
  option_map dev_syspath (find (named subsystem name) fs).
Proof.
  induction fs as [|d fs IH]; simpl; [reflexivity|].
  destruct (at_path path d); simpl.
  - unfold named. cbn [dev_subsystem dev_sysname].
    destruct (_ && _)%bool; reflexivity.
  - destruct (named subsystem name d); [reflexivity | exact IH].
Qed.

Lemma scan_store (subsystem path k text : string) (fs : list sysdev) :
  map dev_syspath (filter (in_subsystem subsystem) (store path k text fs)) =
  map dev_syspath (filter (in_subsystem subsystem) fs).
Proof.
  induction fs as [|d fs IH]; simpl; [reflexivity|].
  destruct (at_path path d); simpl.
  - unfold in_subsystem. cbn [dev_subsystem].
    destruct (String.eqb (dev_subsystem d) subsystem); reflexivity.
  - destruct (in_subsystem subsystem d); simpl; now rewrite IH.
Qed.

(** Writing an attribute moves no device: every name stands for the same
    path as before. *)
Lemma target_store (subsystem name path k text : string) (fs : list sysdev) :
  target subsystem name (store path k text fs) = target subsystem name fs.
Proof.
  unfold target. destruct (String.eqb name "").
  - now rewrite scan_store.
  - apply find_named_store.
Qed.

Lemma writable_at_found (path k : string) (fs : list sysdev) :
  writable_at path k fs = true ->
  exists d a, find (at_path path) fs = Some d /\
              assoc k (dev_attrs d) = Some a /\ attr_writable a = true.
Proof.
  unfold writable_at. destruct (find (at_path path) fs) as [d|]; [|discriminate].
  destruct (assoc k (dev_attrs d)) as [a|] eqn:Ea; [|discriminate].
  intros Hw. exists d, a. auto.
Qed.

End StoreFacts.

(** ** Device resolution *)

Module ResolveFacts.

Import Libc Udev Bus Clightd World StoreFacts.

Lemma resolve_found (dev0 : device_ptr) (subsystem name : string) (p : process)
    (path : string) :
  target subsystem name (sysfs p) = Some path ->
  exists sn evs,
    resolve dev0 subsystem name p = (Done (Obj (next_id p)), opened p path sn evs)
    /\ quiet evs.
Proof.
  unfold target, resolve. rewrite length_zero_eqb.
  destruct (String.eqb name ""); intros H.
  - unfold get_first_matching_device, udev_enumerate_scan, bind, emit.
    cbn [log sysfs].
    destruct (map dev_syspath (filter (in_subsystem subsystem) (sysfs p)))
      as [|path' rest] eqn:E; [discriminate|].
    injection H as ->.
    destruct (find_listed _ _ _ _ E) as [d Hd].
    unfold udev_device_new_from_syspath, bind, emit. cbn [log sysfs].
    rewrite Hd. cbn.
    exists (dev_sysname d), [EvNewFromSyspath path; EvScan subsystem].
    rewrite (find_at_path _ _ _ Hd).
    split; [reflexivity | repeat constructor].
  - unfold udev_device_new_from_subsystem_sysname, bind, emit. cbn [log sysfs].
    destruct (find (named subsystem name) (sysfs p)) as [d|]; [|discriminate].
    injection H as <-. cbn.
    exists (dev_sysname d), [EvNewFromSubsystemSysname subsystem name].
    split; [reflexivity | repeat constructor].
Qed.

Lemma resolve_missing (dev0 : device_ptr) (subsystem name : string) (p : process) :
  name <> "" ->
  find (named subsystem name) (sysfs p) = None ->
  resolve dev0 subsystem name p =
  (Done NULL, log (EvNewFromSubsystemSysname subsystem name) p).
Proof.
  intros Hne Hnone. unfold resolve. rewrite length_zero_eqb.
  destruct (String.eqb_spec name ""); [contradiction|].
  unfold udev_device_new_from_subsystem_sysname, bind, emit. cbn [log sysfs].
  now rewrite Hnone.
Qed.

(** With nothing to scan the loop body of [get_first_matching_device]
    never runs, and the caller's variable keeps the value it had. *)
Lemma resolve_empty_scan (dev0 : device_ptr) (subsystem : string) (p : process) :
  filter (in_subsystem subsystem) (sysfs p) = [] ->
  resolve dev0 subsystem "" p = (Done dev0, log (EvScan subsystem) p).
Proof.
  intros H. unfold resolve. cbn.
  unfold get_first_matching_device, udev_enumerate_scan, bind, emit.
  cbn [log sysfs]. now rewrite H.
Qed.

End ResolveFacts.

(** ** The handlers, path by path *)

Module HandlerFacts.

Import Libc Udev Bus Clightd World StoreFacts ResolveFacts.

Local Opaque atoi decimal String.append.

Ltac run_step :=
  unfold udev_device_get_sysattr_value, udev_device_set_sysattr_value,
    udev_device_get_sysname, udev_device_unref, printf_value, atoi_of,
    sprintf_val, on_object, bind, emit, ret, undefined, opened, log,
    with_sysfs, with_objects, find_obj, remove_obj;
  cbn [find filter negb obj_id obj_syspath obj_sysname sysfs objects next_id
       trace is_null fst snd];
  rewrite ?Nat.eqb_refl.

Ltac run_object := repeat (progress run_step).

Lemma getter_found (attr what : string) (dev0 : device_ptr) (name : string)
    (p : process) (path text : string) :
  target "backlight" name (sysfs p) = Some path ->
  attr_at path attr (sysfs p) = Some text ->
  exists p',
    getter attr what dev0 (call_s name) p = (Done (Reply (atoi text)), p')
    /\ sysfs p' = sysfs p
    /\ objects p' = remove_obj (next_id p) (objects p).
Proof.
  unfold remove_obj. intros Ht Ha.
  destruct (resolve_found dev0 _ _ _ _ Ht) as (sn & evs & Hr & _).
  unfold getter, call_s. cbn [sd_bus_message_read_s].
  unfold bind at 1. rewrite Hr. cbn [is_null].
  run_object. rewrite Ha. run_object.
  eexists. split; [reflexivity|]. split; reflexivity.
Qed.

Lemma getter_reply (attr what : string) (dev0 : device_ptr) (name : string)
    (p : process) (path text : string) :
  target "backlight" name (sysfs p) = Some path ->
  attr_at path attr (sysfs p) = Some text ->
  fst (getter attr what dev0 (call_s name) p) = Done (Reply (atoi text)) /\
  (starts_number text = false ->
   fst (getter attr what dev0 (call_s name) p) = Done (Reply 0)).
Proof.
  intros Ht Ha.
  destruct (getter_found attr what dev0 _ _ _ _ Ht Ha) as (p' & E & _).
  rewrite E. cbn [fst]. split; [reflexivity|].
  intros Hn. now rewrite (LibcFacts.atoi_no_number _ Hn).
Qed.

Lemma getter_missing (attr what : string) (dev0 : device_ptr) (name : string)
    (p : process) :
  name <> "" ->
  find (named "backlight" name) (sysfs p) = None ->
  getter attr what dev0 (call_s name) p =
  (Done device_does_not_exist,
   log (EvNewFromSubsystemSysname "backlight" name) p).
Proof.
  intros Hne Hnone. unfold getter, call_s. cbn [sd_bus_message_read_s].
  unfold bind at 1. now rewrite (resolve_missing dev0 _ _ _ Hne Hnone).
Qed.

Lemma setbrightness_negative (dev0 : device_ptr) (name : string) (value : Z)
    (p : process) :
  value < 0 ->
  method_setbrightness dev0 (call_si name value) p =
  (Done (Error SD_BUS_ERROR_INVALID_ARGS
           "Value must be greater or equal to 0." (- EINVAL)), p).
Proof.
  intros Hneg. unfold method_setbrightness, call_si.
  cbn [sd_bus_message_read_si].
  destruct (Z.ltb_spec value 0); [reflexivity | lia].
Qed.

Lemma setbrightness_missing (dev0 : device_ptr) (name : string) (value : Z)
    (p : process) :
  0 <= value ->
  name <> "" ->
  find (named "backlight" name) (sysfs p) = None ->
  method_setbrightness dev0 (call_si name value) p =
  (Done device_does_not_exist,
   log (EvNewFromSubsystemSysname "backlight" name) p).
Proof.
  intros Hpos Hne Hnone. unfold method_setbrightness, call_si.
  cbn [sd_bus_message_read_si].
  destruct (Z.ltb_spec value 0); [lia|].
  unfold bind at 1. now rewrite (resolve_missing dev0 _ _ _ Hne Hnone).
Qed.

(** The second rejection: the device object is still in [objects]. *)
Lemma setbrightness_over_max (dev0 : device_ptr) (name : string) (value : Z)
    (p : process) (path text : string) :
  0 <= value ->
  target "backlight" name (sysfs p) = Some path ->
  attr_at path "max_brightness" (sysfs p) = Some text ->
  atoi text < value ->
  exists sn evs,
    method_setbrightness dev0 (call_si name value) p =
    (Done (Error SD_BUS_ERROR_INVALID_ARGS
             ("Value must be smaller than " ++ decimal (atoi text) ++ ".")
             (- EINVAL)),
     opened p path sn evs)
    /\ quiet evs.
Proof.
  intros Hpos Ht Ha Hgt.
  destruct (resolve_found dev0 _ _ _ _ Ht) as (sn & evs & Hr & Hq).
  unfold method_setbrightness, call_si. cbn [sd_bus_message_read_si].
  destruct (Z.ltb_spec value 0); [lia|].
  unfold bind at 1. rewrite Hr. cbn [is_null].
  run_object. rewrite Ha.
  destruct (Z.ltb_spec (atoi text) value); [|lia].
  exists sn, (EvGetSysattr (next_id p) "max_brightness" :: evs).
  split; [reflexivity|]. constructor; [reflexivity | exact Hq].
Qed.

(** Both checks passed and the text fits [val]: the write is tried.  When
    the attribute file takes it, the reply is the value. *)
Lemma setbrightness_written (dev0 : device_ptr) (name : string) (value : Z)
    (p : process) (path text : string) :
  0 <= value <= atoi text ->
  fits_val value ->
  target "backlight" name (sysfs p) = Some path ->
  attr_at path "max_brightness" (sysfs p) = Some text ->
  writable_at path "brightness" (sysfs p) = true ->
  exists p',
    method_setbrightness dev0 (call_si name value) p = (Done (Reply value), p')
    /\ sysfs p' = store path "brightness" (decimal value) (sysfs p)
    /\ objects p' = remove_obj (next_id p) (objects p)
    /\ next_id p' = S (next_id p).
Proof.
  unfold remove_obj. intros [Hlo Hhi] Hfit Ht Ha Hw.
  destruct (resolve_found dev0 _ _ _ _ Ht) as (sn & evs & Hr & Hq).
  destruct (writable_at_found _ _ _ Hw) as (d & a & Hd & Hb & Hwa).
  unfold method_setbrightness, call_si. cbn [sd_bus_message_read_si].
  destruct (Z.ltb_spec value 0); [lia|].
  unfold bind at 1. rewrite Hr. cbn [is_null].
  run_object. rewrite Ha. run_object.
  destruct (Z.ltb_spec (atoi text) value); [lia|].
  unfold sprintf_d. unfold fits_val in Hfit.
  destruct (Nat.leb_spec (S (String.length (decimal value))) 10); [|lia].
  run_object. rewrite Hd, Hb, Hwa. run_object.
  change (0 <? 0) with false. run_object.
  eexists. split; [reflexivity|]. repeat split; reflexivity.
Qed.

(** When it does not, the reply is the error, after the release. *)
Lemma setbrightness_denied (dev0 : device_ptr) (name : string) (value : Z)
    (p : process) (path text : string) :
  0 <= value <= atoi text ->
  fits_val value ->
  target "backlight" name (sysfs p) = Some path ->
  attr_at path "max_brightness" (sysfs p) = Some text ->
  writable_at path "brightness" (sysfs p) = false ->
  exists r p',
    method_setbrightness dev0 (call_si name value) p =
    (Done (Error SD_BUS_ERROR_ACCESS_DENIED "Not authorized." r), p')
    /\ r < 0
    /\ sysfs p' = sysfs p
    /\ objects p' = remove_obj (next_id p) (objects p).
Proof.
  unfold remove_obj. intros [Hlo Hhi] Hfit Ht Ha Hw.
  destruct (resolve_found dev0 _ _ _ _ Ht) as (sn & evs & Hr & Hq).
  unfold method_setbrightness, call_si. cbn [sd_bus_message_read_si].
  destruct (Z.ltb_spec value 0); [lia|].
  unfold bind at 1. rewrite Hr. cbn [is_null].
  run_object. rewrite Ha. run_object.
  destruct (Z.ltb_spec (atoi text) value); [lia|].
  unfold sprintf_d. unfold fits_val in Hfit.
  destruct (Nat.leb_spec (S (String.length (decimal value))) 10); [|lia].
  run_object. unfold writable_at in Hw.
  destruct (find (at_path path) (sysfs p)) as [d|];
    [destruct (assoc "brightness" (dev_attrs d)) as [a|];
     [rewrite Hw|]|];
    run_object;
    [change (- EACCES <? 0) with true
    |change (- ENOENT <? 0) with true
    |change (- ENOENT <? 0) with true];
    run_object;
    do 2 eexists; (split; [reflexivity|]); repeat split; reflexivity.
Qed.

End HandlerFacts.

(** ** Computations that write no attribute *)

Module FrameFacts.

Import Libc Udev Bus Clightd World.

Lemma ro_ret {A : Type} (a : A) : read_only (ret a).
Proof. intros p. split; [reflexivity|]. exists []. split; [reflexivity | constructor]. Qed.

Lemma ro_undefined {A : Type} : read_only (@undefined A).
Proof. intros p. split; [reflexivity|]. exists []. split; [reflexivity | constructor]. Qed.

Lemma ro_emit (e : event) : is_set_sysattr e = false -> read_only (emit e).
Proof.
  intros He p. split; [reflexivity|]. exists [e].
  split; [reflexivity | repeat constructor; exact He].
Qed.

Lemma ro_bind {A B : Type} (m : M A) (f : A -> M B) :
  read_only m -> (forall a, read_only (f a)) -> read_only (bind m f).
Proof.
  intros Hm Hf p. unfold bind.
  destruct (Hm p) as (Hs & evs & Ht & Hq).
  destruct (m p) as [[a|] p1]; cbn [snd] in *.
  - destruct (Hf a p1) as (Hs' & evs' & Ht' & Hq').
    split; [congruence|]. exists (evs' ++ evs)%list.
    split; [rewrite Ht', Ht; apply app_assoc | apply Forall_app; split; assumption].
  - split; [assumption|]. exists evs. split; assumption.
Qed.

(** A step that looks at the state and leaves it as it is. *)
Lemma ro_peek {A : Type} (g : process -> result A) : read_only (fun p => (g p, p)).
Proof. intros p. split; [reflexivity|]. exists []. split; [reflexivity | constructor]. Qed.

Lemma ro_on_object {A : Type} (dev : device_ptr) (if_null : M A)
    (k : device_obj -> M A) :
  read_only if_null -> (forall o, read_only (k o)) ->
  read_only (on_object dev if_null k).
Proof.
  intros Hn Hk. destruct dev as [|id|]; cbn [on_object].
  - exact Hn.
  - intros p. destruct (find_obj id (objects p)) as [o|].
    + apply Hk.
    + apply (@ro_undefined A p).
  - apply ro_undefined.
Qed.

(** Creating or releasing a device object changes [objects] only. *)
Lemma ro_open (pick : process -> option sysdev) :
  read_only (fun p =>
    match pick p with
    | Some d => let (ptr, p') := alloc d p in (Done ptr, p')
    | None => (Done NULL, p)
    end).
Proof.
  intros p. destruct (pick p); cbn; (split; [reflexivity|]);
    exists []; (split; [reflexivity | constructor]).
Qed.

Lemma ro_new_from_subsystem_sysname (subsystem sysname : string) :
  read_only (udev_device_new_from_subsystem_sysname subsystem sysname).
Proof.
  apply ro_bind; [now apply ro_emit | intros _].
  apply (ro_open (fun p => find (named subsystem sysname) (sysfs p))).
Qed.

Lemma ro_new_from_syspath (path : string) :
  read_only (udev_device_new_from_syspath path).
Proof.
  apply ro_bind; [now apply ro_emit | intros _].
  apply (ro_open (fun p => find (at_path path) (sysfs p))).
Qed.

Lemma ro_enumerate_scan (subsystem : string) :
  read_only (udev_enumerate_scan subsystem).
Proof. apply ro_bind; [now apply ro_emit | intros _; apply ro_peek]. Qed.

Lemma ro_get_sysattr_value (dev : device_ptr) (attr : string) :
  read_only (udev_device_get_sysattr_value dev attr).
Proof.
  apply ro_on_object; [apply ro_ret | intros o].
  apply ro_bind; [now apply ro_emit | intros _; apply ro_peek].
Qed.

Lemma ro_get_sysname (dev : device_ptr) : read_only (udev_device_get_sysname dev).
Proof. apply ro_on_object; [apply ro_ret | intros o; apply ro_ret]. Qed.

Lemma ro_unref (dev : device_ptr) : read_only (udev_device_unref dev).
Proof.
  apply ro_on_object; [apply ro_ret | intros o].
  apply ro_bind; [now apply ro_emit | intros _].
  intros p. split; [reflexivity|]. exists []. split; [reflexivity | constructor].
Qed.

Lemma ro_atoi_of (text : option string) : read_only (atoi_of text).
Proof. destruct text; [apply ro_ret | apply ro_undefined]. Qed.

Lemma ro_printf_value (what : string) (dev : device_ptr) (x : Z) :
  read_only (printf_value what dev x).
Proof.
  apply ro_bind; [apply ro_get_sysname | intros name; now apply ro_emit].
Qed.

Lemma ro_parse_failed (r : Z) : read_only (parse_failed r).
Proof. apply ro_bind; [now apply ro_emit | intros _; apply ro_ret]. Qed.

Lemma ro_get_first_matching_device (dev : device_ptr) (subsystem : string) :
  read_only (get_first_matching_device dev subsystem).
Proof.
  apply ro_bind; [apply ro_enumerate_scan | intros [|path rest]].
  - apply ro_ret.
  - apply ro_new_from_syspath.
Qed.

Lemma ro_resolve (dev : device_ptr) (subsystem name : string) :
  read_only (resolve dev subsystem name).
Proof.
  unfold resolve. destruct (Nat.eqb _ _).
  - apply ro_get_first_matching_device.
  - apply ro_new_from_subsystem_sysname.
Qed.

Lemma ro_getter (attr what : string) (dev0 : device_ptr) (m : sd_bus_message) :
  read_only (getter attr what dev0 m).
Proof.
  unfold getter. destruct (sd_bus_message_read_s m) as [name|r].
  - apply ro_bind; [apply ro_resolve | intros dev].
    destruct (is_null dev); [apply ro_ret|].
    apply ro_bind; [apply ro_get_sysattr_value | intros text].
    apply ro_bind; [apply ro_atoi_of | intros x].
    apply ro_bind; [apply ro_printf_value | intros _].
    apply ro_bind; [apply ro_unref | intros _; apply ro_ret].
  - apply ro_parse_failed.
Qed.

End FrameFacts.

(** ** The request loop and the two-state machine *)

Module LoopFacts.

Import Clightd World.

Lemma machine_run_finished (r : Z) (codes : list Z) :
  machine_run (Finished r) codes = (Finished r, codes).
Proof. destruct codes; reflexivity. Qed.

Lemma request_loop_machine (codes : list Z) :
  request_loop codes = machine_run Draining codes /\
  forall r, request_loop (r :: codes) = machine_run Draining (r :: codes).
Proof.
  induction codes as [|a codes [IH1 IH2]].
  - split; [reflexivity|]. intros r. cbn.
    destruct (r <? 0); [reflexivity|]. destruct (0 <? r); reflexivity.
  - split; [apply IH2|]. intros r.
    cbn [request_loop machine_run machine_step].
    destruct (r <? 0); [reflexivity|].
    destruct (0 <? r).
    + apply IH2.
    + cbn [machine_run machine_step].
      destruct (a <? 0); [now rewrite machine_run_finished | exact IH1].
Qed.

Lemma machine_step_running (s : loop_state) (r : Z) :
  running s = true -> 0 <= r -> running (machine_step s r) = true.
Proof.
  intros Hs Hr. destruct s; cbn in *; try discriminate;
    destruct (Z.ltb_spec r 0); try lia; try reflexivity.
  destruct (0 <? r); reflexivity.
Qed.

(** Codes that are not negative are all consumed, and the loop goes on. *)
Lemma machine_run_nonnegative (codes : list Z) :
  nonnegative codes ->
  forall s, running s = true ->
    running (fst (machine_run s codes)) = true /\ snd (machine_run s codes) = [].
Proof.
  induction 1 as [|r codes Hr _ IH]; intros s Hs.
  - destruct s; [split; reflexivity .. | discriminate].
  - specialize (IH _ (machine_step_running s r Hs Hr)).
    destruct s; [exact IH .. | discriminate].
Qed.

(** The first negative code ends the run, whatever follows it. *)
Lemma machine_run_error (pre : list Z) :
  nonnegative pre ->
  forall s r post, running s = true -> r < 0 ->
    machine_run s (pre ++ r :: post) = (Finished r, post).
Proof.
  induction 1 as [|a pre Ha _ IH]; intros s r post Hs Hr.
  - destruct s; cbn; try discriminate;
      destruct (Z.ltb_spec r 0); try lia; apply machine_run_finished.
  - specialize (IH _ r post (machine_step_running s a Hs Ha) Hr).
    destruct s; [exact IH .. | discriminate].
Qed.

End LoopFacts.

(** * The claims of the specification *)

Import Libc Udev Bus Clightd World.

(** The three getters are one text with two parameters. *)
Lemma method_getbrightness_getter :
  method_getbrightness = getter "brightness" "Current brightness".
Proof. reflexivity. Qed.

Lemma method_getmaxbrightness_getter :
  method_getmaxbrightness = getter "max_brightness" "Max brightness".
Proof. reflexivity. Qed.

Lemma method_getactualbrightness_getter :
  method_getactualbrightness = getter "actual_brightness" "Actual brightness".
Proof. reflexivity. Qed.

(** ** The scenario of section 8 *)

Example scenario_getmax :
  fst (method_getmaxbrightness NULL (call_s "intel_backlight") laptop) = Done (Reply 100).
Proof. reflexivity. Qed.

Example scenario_set_150 :
  fst (method_setbrightness NULL (call_si "intel_backlight" 150) laptop) =
  Done (Error InvalidArgument "Value must be smaller than 100." (- EINVAL)).
Proof. reflexivity. Qed.

Example scenario_set_60_get :
  let r := method_setbrightness NULL (call_si "intel_backlight" 60) laptop in
  fst r = Done (Reply 60) /\
  fst (method_getbrightness NULL (call_s "intel_backlight") (snd r)) = Done (Reply 60).
Proof. split; reflexivity. Qed.

(** The write that the attribute file refuses: the handler releases the
    device object before it sets the error. *)
Example denied_write_releases :
  let r := method_setbrightness NULL (call_si "intel_backlight" 60) locked in
  fst r = Done (Error AccessDenied "Not authorized." (- EACCES)) /\
  objects (snd r) = [].
Proof. split; reflexivity. Qed.

(** With the pointer null by chance, the empty scan ends in the error for
    a missing device. *)
Example empty_scan_null :
  fst (method_getbrightness NULL (call_s "") headless) = Done device_does_not_exist.
Proof. reflexivity. Qed.

(** ** C1 *)

(** C1, as the specification states it, fails: the brightness file of
    "acpi_video0" holds "abc", which is no integer, and getbrightness
    replies 0 instead of failing. *)
Lemma unparsable_brightness_reads_zero :
  attr_at "/sys/class/backlight/acpi_video0" "brightness" (sysfs garbled) = Some "abc" /\
  is_integer_text "abc" = false /\
  fst (method_getbrightness NULL (call_s "acpi_video0") garbled) = Done (Reply 0) /\
  is_error (Reply 0) = false.
Proof. repeat split; reflexivity. Qed.

(** C1 (amended): for a device that the request names and an attribute among
    brightness, max_brightness and actual_brightness that the device has,
    the getter of that attribute replies [atoi] of the stored text; for a
    text that does not start with a number that reply is 0.  No getter has
    an error for an attribute value. *)
Theorem getters_reply_atoi (dev0 : device_ptr) (name : string) (p : process)
    (path : string) :
  target "backlight" name (sysfs p) = Some path ->
  (forall text, attr_at path "brightness" (sysfs p) = Some text ->
     fst (method_getbrightness dev0 (call_s name) p) = Done (Reply (atoi text)) /\
     (starts_number text = false ->
      fst (method_getbrightness dev0 (call_s name) p) = Done (Reply 0))) /\
  (forall text, attr_at path "max_brightness" (sysfs p) = Some text ->
     fst (method_getmaxbrightness dev0 (call_s name) p) = Done (Reply (atoi text)) /\
     (starts_number text = false ->
      fst (method_getmaxbrightness dev0 (call_s name) p) = Done (Reply 0))) /\
  (forall text, attr_at path "actual_brightness" (sysfs p) = Some text ->
     fst (method_getactualbrightness dev0 (call_s name) p) = Done (Reply (atoi text)) /\
     (starts_number text = false ->
      fst (method_getactualbrightness dev0 (call_s name) p) = Done (Reply 0))).
Proof.
  intros Ht.
  rewrite method_getbrightness_getter, method_getmaxbrightness_getter,
    method_getactualbrightness_getter.
  split; [|split]; intros text Ha;
    exact (HandlerFacts.getter_reply _ _ dev0 _ _ _ _ Ht Ha).
Qed.

Lemma getters_reply_atoi_witness :
  target "backlight" "acpi_video0" (sysfs garbled) =
    Some "/sys/class/backlight/acpi_video0" /\
  starts_number "abc" = false /\
  fst (method_getbrightness NULL (call_s "acpi_video0") garbled) = Done (Reply 0) /\
  fst (method_getmaxbrightness NULL (call_s "acpi_video0") garbled) = Done (Reply 15) /\
  fst (method_getactualbrightness NULL (call_s "acpi_video0") garbled) = Done (Reply 0).
Proof.
  pose proof (getters_reply_atoi NULL "acpi_video0" garbled
                "/sys/class/backlight/acpi_video0" eq_refl) as H.
  split; [reflexivity|]. split; [reflexivity|].
  split; [exact (proj2 (proj1 H "abc" eq_refl) eq_refl)|].
  split; [exact (proj1 (proj1 (proj2 H) "15" eq_refl))|].
  exact (proj2 (proj2 (proj2 H) "abc" eq_refl) eq_refl).
Defined.

(** ** C2 *)

(** C2 (the code at the failing input): no backlight device, the empty
    name, and the local variable [dev] of the handler holding a value that
    is not null.  [get_first_matching_device] assigns nothing, the test
    [!dev] fails, and the handler goes on with that value instead of
    replying that the device does not exist. *)
Theorem empty_scan_keeps_unassigned_pointer :
  filter (in_subsystem "backlight") (sysfs headless) = [] /\
  fst (resolve Wild "backlight" "" headless) = Done Wild /\
  fst (method_getbrightness Wild (call_s "") headless) = Stuck /\
  fst (method_getbrightness Wild (call_s "") headless) <> Done device_does_not_exist.
Proof. repeat split; try reflexivity. discriminate. Qed.

(** ** C3 *)

(** C3 (the code at the failing input): setbrightness of 150 on a device
    whose max is 100 sets the error and returns while the device object it
    resolved is still allocated. *)
Theorem over_max_rejection_keeps_device_object :
  let r := method_setbrightness NULL (call_si "intel_backlight" 150) laptop in
  objects laptop = [] /\
  fst r = Done (Error InvalidArgument "Value must be smaller than 100." (- EINVAL)) /\
  objects (snd r) =
    [mk_obj 0 "/sys/class/backlight/intel_backlight" "intel_backlight"].
Proof. repeat split; reflexivity. Qed.

(** ** C4 *)

(** C4 (the code at the failing input): a value of ten digits that is not
    above the max of the device passes both checks, and its text with the
    NUL does not fit [char val[10]]: the write is not a defined execution. *)
Theorem ten_digit_value_overruns_val :
  current_max "wide0" (sysfs wide) = Some 2147483647 /\
  0 <= 1000000000 <= 2147483647 /\
  String.length (decimal 1000000000) = 10%nat /\
  sprintf_d 10 1000000000 = None /\
  fst (method_setbrightness NULL (call_si "wide0" 1000000000) wide) = Stuck.
Proof. repeat split; try reflexivity; discriminate. Qed.

(** ** C5 *)

(** C5: a value that is negative, or above the max that the attribute file
    of the named device holds, makes setbrightness fail with
    InvalidArgument; the attribute store is the same afterwards, and the
    handler made no call of [udev_device_set_sysattr_value]. *)
Theorem rejected_value_leaves_store (dev0 : device_ptr) (name : string)
    (value : Z) (p : process) :
  value < 0 \/ (exists max, current_max name (sysfs p) = Some max /\ max < value) ->
  let r := method_setbrightness dev0 (call_si name value) p in
  fails_with InvalidArgument (fst r) /\
  sysfs (snd r) = sysfs p /\
  current_brightness name (sysfs (snd r)) = current_brightness name (sysfs p) /\
  exists evs : list event, trace (snd r) = (evs ++ trace p)%list /\ quiet evs.
Proof.
  intros H. cbv zeta.
  destruct (Z.ltb_spec value 0) as [Hneg|Hpos].
  - rewrite (HandlerFacts.setbrightness_negative dev0 name value p Hneg). cbn [fst snd].
    split; [do 2 eexists; reflexivity|]. split; [reflexivity|]. split; [reflexivity|].
    exists []. split; [reflexivity | constructor].
  - destruct H as [Hneg | (max & Hm & Hgt)]; [lia|].
    unfold current_max, current in Hm.
    destruct (target "backlight" name (sysfs p)) as [path|] eqn:Ht; [|discriminate].
    destruct (attr_at path "max_brightness" (sysfs p)) as [text|] eqn:Ha; [|discriminate].
    cbn [option_map] in Hm. injection Hm as <-.
    destruct (HandlerFacts.setbrightness_over_max dev0 name value p path text
                Hpos Ht Ha Hgt) as (sn & evs & E & Hq).
    rewrite E. cbn [fst snd opened sysfs trace].
    split; [do 2 eexists; reflexivity|]. split; [reflexivity|]. split; [reflexivity|].
    exists evs. split; [reflexivity | exact Hq].
Qed.

Lemma rejected_value_leaves_store_witness :
  (let r := method_setbrightness Wild (call_si "" (-1)) laptop in
   fails_with InvalidArgument (fst r) /\ sysfs (snd r) = sysfs laptop) /\
  (let r := method_setbrightness Wild (call_si "" 101) laptop in
   fails_with InvalidArgument (fst r) /\ sysfs (snd r) = sysfs laptop).
Proof.
  split.
  - pose proof (rejected_value_leaves_store Wild "" (-1) laptop
                  (or_introl eq_refl)) as H.
    exact (conj (proj1 H) (proj1 (proj2 H))).
  - pose proof (rejected_value_leaves_store Wild "" 101 laptop
                  (or_intror (ex_intro _ 100 (conj eq_refl eq_refl)))) as H.
    exact (conj (proj1 H) (proj1 (proj2 H))).
Defined.

(** ** C6 *)

(** C6, as the specification states it, fails: 60 is within the range of
    "intel_backlight", whose brightness file the service may not write, and
    setbrightness fails with AccessDenied. *)
Lemma in_range_write_denied :
  current_max "intel_backlight" (sysfs locked) = Some 100 /\
  0 <= 60 <= 100 /\
  fst (method_setbrightness NULL (call_si "intel_backlight" 60) locked) =
  Done (Error AccessDenied "Not authorized." (- EACCES)).
Proof. repeat split; try reflexivity; discriminate. Qed.

(** C6 (amended): for a name that stands for a device, a value between 0 and
    the max of the device whose text fits [val], and a brightness file that
    takes the write, setbrightness replies the value, and getbrightness of
    the same name then replies the value. *)
Theorem read_after_write (dev0 dev1 : device_ptr) (name : string)
    (value max : Z) (p : process) :
  current_max name (sysfs p) = Some max ->
  0 <= value <= max ->
  fits_val value ->
  brightness_writable name (sysfs p) = true ->
  exists p',
    method_setbrightness dev0 (call_si name value) p = (Done (Reply value), p') /\
    fst (method_getbrightness dev1 (call_s name) p') = Done (Reply value) /\
    current_brightness name (sysfs p') = Some value.
Proof.
  intros Hm Hrange Hfit Hw.
  unfold current_max, current, brightness_writable in Hm, Hw.
  destruct (target "backlight" name (sysfs p)) as [path|] eqn:Ht; [|discriminate].
  destruct (attr_at path "max_brightness" (sysfs p)) as [text|] eqn:Ha; [|discriminate].
  cbn [option_map] in Hm. injection Hm as <-.
  destruct (HandlerFacts.setbrightness_written dev0 name value p path text
              Hrange Hfit Ht Ha Hw) as (p' & E & Hs & _).
  assert (Hint : atoi (decimal value) = value).
  { apply LibcFacts.atoi_decimal. pose proof (LibcFacts.atoi_range text). lia. }
  assert (Ht' : target "backlight" name (sysfs p') = Some path)
    by (rewrite Hs, StoreFacts.target_store; exact Ht).
  assert (Hb : attr_at path "brightness" (sysfs p') = Some (decimal value)).
  { destruct (StoreFacts.writable_at_found _ _ _ Hw) as (d & a & Hd & Hk & _).
    rewrite Hs. apply (StoreFacts.attr_at_store _ _ _ _ (attr_text a)).
    unfold attr_at. now rewrite Hd, Hk. }
  exists p'. split; [exact E|]. split.
  - rewrite method_getbrightness_getter.
    rewrite (proj1 (HandlerFacts.getter_reply _ _ dev1 _ _ _ _ Ht' Hb)).
    now rewrite Hint.
  - unfold current_brightness, current. rewrite Ht', Hb. cbn [option_map].
    now rewrite Hint.
Qed.

Lemma read_after_write_witness :
  exists p',
    method_setbrightness Wild (call_si "" 100) laptop = (Done (Reply 100), p') /\
    fst (method_getbrightness Wild (call_s "") p') = Done (Reply 100) /\
    current_brightness "" (sysfs p') = Some 100.
Proof.
  apply (read_after_write Wild Wild "" 100 100 laptop).
  - reflexivity.
  - lia.
  - unfold fits_val. vm_compute. lia.
  - reflexivity.
Defined.

(** ** C7 *)

(** C7: with a name that is not empty the resolver looks the device of
    that name up in the subsystem: it creates a device object for it, or
    gives the null pointer when there is none, and the four handlers then
    fail with NotFound; with the empty name and a scan that lists a device,
    it creates a device object for the first one listed. *)
Theorem resolver_contract (dev0 : device_ptr) (subsystem name : string)
    (p : process) :
  (name <> "" ->
   match find (named subsystem name) (sysfs p) with
   | Some d =>
       exists p' sn,
         resolve dev0 subsystem name p = (Done (Obj (next_id p)), p') /\
         find_obj (next_id p) (objects p') =
           Some (mk_obj (next_id p) (dev_syspath d) sn)
   | None => fst (resolve dev0 subsystem name p) = Done NULL
   end) /\
  (name <> "" ->
   find (named "backlight" name) (sysfs p) = None ->
   (forall value, 0 <= value ->
      fails_with NotFound (fst (method_setbrightness dev0 (call_si name value) p))) /\
   fails_with NotFound (fst (method_getbrightness dev0 (call_s name) p)) /\
   fails_with NotFound (fst (method_getmaxbrightness dev0 (call_s name) p)) /\
   fails_with NotFound (fst (method_getactualbrightness dev0 (call_s name) p))) /\
  (name = "" ->
   forall d rest,
     filter (in_subsystem subsystem) (sysfs p) = d :: rest ->
     exists p' sn,
       resolve dev0 subsystem name p = (Done (Obj (next_id p)), p') /\
       find_obj (next_id p) (objects p') =
         Some (mk_obj (next_id p) (dev_syspath d) sn)).
Proof.
  assert (Hopen : forall path,
             target subsystem name (sysfs p) = Some path ->
             exists p' sn,
               resolve dev0 subsystem name p = (Done (Obj (next_id p)), p') /\
               find_obj (next_id p) (objects p') = Some (mk_obj (next_id p) path sn)).
  { intros path Ht.
    destruct (ResolveFacts.resolve_found dev0 _ _ _ _ Ht) as (sn & evs & E & _).
    exists (opened p path sn evs), sn. split; [exact E|].
    unfold find_obj, opened. cbn [objects find obj_id]. now rewrite Nat.eqb_refl. }
  split; [|split].
  - intros Hne. destruct (find (named subsystem name) (sysfs p)) as [d|] eqn:Hf.
    + apply Hopen. unfold target.
      destruct (String.eqb_spec name ""); [contradiction|]. now rewrite Hf.
    + now rewrite (ResolveFacts.resolve_missing dev0 _ _ _ Hne Hf).
  - intros Hne Hf.
    rewrite method_getbrightness_getter, method_getmaxbrightness_getter,
      method_getactualbrightness_getter.
    rewrite !(HandlerFacts.getter_missing _ _ dev0 _ _ Hne Hf).
    split; [|repeat split; do 2 eexists; reflexivity].
    intros value Hv.
    rewrite (HandlerFacts.setbrightness_missing dev0 _ _ _ Hv Hne Hf).
    do 2 eexists; reflexivity.
  - intros -> d rest Hs. apply Hopen. unfold target. cbn [String.eqb].
    now rewrite Hs.
Qed.

Lemma resolver_contract_witness :
  (exists p' sn,
     resolve NULL "backlight" "intel_backlight" laptop = (Done (Obj 0), p') /\
     find_obj 0 (objects p') =
       Some (mk_obj 0 "/sys/class/backlight/intel_backlight" sn)) /\
  fst (resolve NULL "backlight" "acpi_video0" laptop) = Done NULL /\
  fails_with NotFound (fst (method_getbrightness NULL (call_s "acpi_video0") laptop)) /\
  (exists p' sn,
     resolve Wild "backlight" "" laptop = (Done (Obj 0), p') /\
     find_obj 0 (objects p') =
       Some (mk_obj 0 "/sys/class/backlight/intel_backlight" sn)).
Proof.
  assert (Hne : forall c s, String c s <> "") by discriminate.
  split; [|split; [|split]].
  - exact (proj1 (resolver_contract NULL "backlight" "intel_backlight" laptop)
             (Hne _ _)).
  - exact (proj1 (resolver_contract NULL "backlight" "acpi_video0" laptop)
             (Hne _ _)).
  - exact (proj1 (proj2 (proj1 (proj2
             (resolver_contract NULL "backlight" "acpi_video0" laptop))
             (Hne _ _) eq_refl))).
  - exact (proj2 (proj2 (resolver_contract Wild "backlight" "" laptop))
             eq_refl _ _ eq_refl).
Defined.

(** ** C8 *)

(** C8: the loop of [main] is the two-state machine started in Draining:
    on any codes of the transport it reaches the state the machine reaches.
    While no code is negative it consumes every code and stays in the loop;
    the first negative code, from [sd_bus_process] or from [sd_bus_wait],
    ends it with that code, the codes after it are never asked for, and the
    process exits with EXIT_FAILURE. *)
Theorem request_loop_is_two_state_machine (pre : list Z) (r : Z) (post : list Z) :
  nonnegative pre ->
  r < 0 ->
  request_loop pre = machine_run Draining pre /\
  running (fst (request_loop pre)) = true /\
  snd (request_loop pre) = [] /\
  request_loop (pre ++ r :: post) = machine_run Draining (pre ++ r :: post) /\
  request_loop (pre ++ r :: post) = (Finished r, post) /\
  exit_status (fst (request_loop (pre ++ r :: post))) = Some EXIT_FAILURE.
Proof.
  intros Hpre Hr.
  pose proof (proj1 (LoopFacts.request_loop_machine pre)) as E1.
  pose proof (proj1 (LoopFacts.request_loop_machine (pre ++ r :: post))) as E2.
  destruct (LoopFacts.machine_run_nonnegative pre Hpre Draining eq_refl) as [Hrun Hrest].
  pose proof (LoopFacts.machine_run_error pre Hpre Draining r post eq_refl Hr) as Herr.
  rewrite E1, E2, Herr. repeat split; try assumption.
  cbn. destruct (Z.ltb_spec r 0); [reflexivity | lia].
Qed.

Lemma request_loop_is_two_state_machine_witness :
  request_loop [1; 1; 0; 0; 0] = (Waiting, []) /\
  request_loop [1; 1; 0; 0; 0; -104; 1] = (Finished (-104), [1]) /\
  exit_status (fst (request_loop [1; 1; 0; 0; 0; -104; 1])) = Some EXIT_FAILURE.
Proof.
  assert (Hpre : nonnegative [1; 1; 0; 0; 0]) by (repeat constructor; lia).
  assert (Hr : -104 < 0) by lia.
  pose proof (request_loop_is_two_state_machine [1; 1; 0; 0; 0] (-104) [1] Hpre Hr)
    as (E & _ & _ & _ & F & X).
  split; [rewrite E; reflexivity|]. split; [exact F | exact X].
Defined.

(** ** C9 *)

(** C9: a negative value makes setbrightness fail with InvalidArgument for
    every name, also one that names no device and the empty name with no
    device to scan; the failure is not NotFound, and the state of the
    process is untouched: no scan, no lookup, no device object. *)
Theorem negative_value_rejected_before_resolution (dev0 : device_ptr)
    (name : string) (value : Z) (p : process) :
  value < 0 ->
  let r := method_setbrightness dev0 (call_si name value) p in
  fails_with InvalidArgument (fst r) /\
  ~ fails_with NotFound (fst r) /\
  snd r = p /\
  trace (snd r) = trace p /\
  objects (snd r) = objects p.
Proof.
  intros Hneg. cbv zeta.
  rewrite (HandlerFacts.setbrightness_negative dev0 name value p Hneg). cbn [fst snd].
  split; [do 2 eexists; reflexivity|].
  split; [intros (message & code & H); discriminate H|].
  repeat split.
Qed.

Lemma negative_value_rejected_before_resolution_witness :
  fails_with InvalidArgument
    (fst (method_setbrightness Wild (call_si "" (-1)) headless)) /\
  snd (method_setbrightness Wild (call_si "" (-1)) headless) = headless /\
  fails_with InvalidArgument
    (fst (method_setbrightness NULL (call_si "acpi_video0" (-2147483648)) laptop)) /\
  trace (snd (method_setbrightness NULL (call_si "acpi_video0" (-2147483648)) laptop))
    = [].
Proof.
  pose proof (negative_value_rejected_before_resolution Wild "" (-1) headless
                eq_refl) as H1.
  pose proof (negative_value_rejected_before_resolution NULL "acpi_video0"
                (-2147483648) laptop eq_refl) as H2.
  split; [exact (proj1 H1)|]. split; [exact (proj1 (proj2 (proj2 H1)))|].
  split; [exact (proj1 H2)|]. exact (proj1 (proj2 (proj2 (proj2 H2)))).
Defined.

(** ** C10 *)

(** C10: getbrightness, getmaxbrightness and getactualbrightness write no
    attribute: on every message, every value of the local pointer and every
    state, the attribute store after the call is the one before it, and the
    call made no [udev_device_set_sysattr_value]. *)
Theorem getters_write_nothing (dev0 : device_ptr) (m : sd_bus_message) (p : process) :
  sysfs (snd (method_getbrightness dev0 m p)) = sysfs p /\
  sysfs (snd (method_getmaxbrightness dev0 m p)) = sysfs p /\
  sysfs (snd (method_getactualbrightness dev0 m p)) = sysfs p /\
  read_only (method_getbrightness dev0 m) /\
  read_only (method_getmaxbrightness dev0 m) /\
  read_only (method_getactualbrightness dev0 m).
Proof.
  rewrite method_getbrightness_getter, method_getmaxbrightness_getter,
    method_getactualbrightness_getter.
  repeat split; try apply FrameFacts.ro_getter; apply (FrameFacts.ro_getter _ _ dev0 m p).
Qed.

(** * Further properties of the handlers *)

Module ExecFacts.

Import Libc Udev Bus Clightd World Objects StoreFacts ResolveFacts.

Local Opaque atoi decimal String.append.

(** The three ways the resolution of a name can end. *)
Lemma resolve_cases (dev0 : device_ptr) (subsystem name : string) (p : process) :
  (exists path sn evs,
     target subsystem name (sysfs p) = Some path /\
     resolve dev0 subsystem name p = (Done (Obj (next_id p)), opened p path sn evs) /\
     quiet evs) \/
  (target subsystem name (sysfs p) = None /\ name <> "" /\
   resolve dev0 subsystem name p =
   (Done NULL, log (EvNewFromSubsystemSysname subsystem name) p)) \/
  (target subsystem name (sysfs p) = None /\ name = "" /\
   resolve dev0 subsystem name p = (Done dev0, log (EvScan subsystem) p)).
Proof.
  destruct (target subsystem name (sysfs p)) as [path|] eqn:Ht.
  - left. destruct (resolve_found dev0 _ _ _ _ Ht) as (sn & evs & E & Hq).
    exists path, sn, evs. auto.
  - right. unfold target in Ht. destruct (String.eqb_spec name "") as [->|Hne].
    + right. split; [reflexivity|]. split; [reflexivity|].
      apply resolve_empty_scan.
      destruct (filter (in_subsystem subsystem) (sysfs p)); [reflexivity | discriminate].
    + left. split; [reflexivity|]. split; [exact Hne|].
      apply resolve_missing; [exact Hne|].
      destruct (find (named subsystem name) (sysfs p)); [discriminate | reflexivity].
Qed.

Lemma find_obj_id (id : nat) (os : list device_obj) (o : device_obj) :
  find_obj id os = Some o -> obj_id o = id.
Proof.
  intros H. apply find_some in H. destruct H as [_ H]. now apply Nat.eqb_eq.
Qed.

Ltac exec_live Ho :=
  repeat (progress
    (unfold udev_device_get_sysattr_value, udev_device_set_sysattr_value,
       udev_device_get_sysname, udev_device_unref, printf_value, atoi_of,
       sprintf_val, on_object, bind, emit, ret, undefined, log,
       with_sysfs, with_objects;
     cbn [sysfs objects next_id trace is_null fst snd];
     rewrite ?Ho)).

(** A getter from the point where its pointer is a device object. *)
Lemma getter_on_object (attr what : string) (dev0 : device_ptr) (name : string)
    (p : process) (id : nat) (p1 : process) (o : device_obj) :
  resolve dev0 "backlight" name p = (Done (Obj id), p1) ->
  find_obj id (objects p1) = Some o ->
  exists p',
    getter attr what dev0 (call_s name) p =
    (match attr_at (obj_syspath o) attr (sysfs p1) with
     | Some text => Done (Reply (atoi text))
     | None => Stuck
     end, p') /\
    sysfs p' = sysfs p1 /\
    next_id p' = next_id p1 /\
    (attr_at (obj_syspath o) attr (sysfs p1) <> None ->
     objects p' = remove_obj id (objects p1)).
Proof.
  intros Hr Ho.
  pose proof (find_obj_id _ _ _ Ho) as Hid.
  unfold getter, call_s. cbn [sd_bus_message_read_s].
  unfold bind at 1. rewrite Hr. cbn [is_null].
  exec_live Ho.
  destruct (attr_at (obj_syspath o) attr (sysfs p1)) as [text|]; exec_live Ho.
  - rewrite Hid. eexists. repeat split.
  - eexists. repeat split. intros H. now elim H.
Qed.

Lemma getter_message (attr what : string) (dev0 : device_ptr)
    (m : sd_bus_message) (name : string) :
  sd_bus_message_read_s m = inl name ->
  getter attr what dev0 m = getter attr what dev0 (call_s name).
Proof. intros H. unfold getter, call_s. cbn [sd_bus_message_read_s]. now rewrite H. Qed.

Lemma getter_unparsed (attr what : string) (dev0 : device_ptr)
    (m : sd_bus_message) (c : Z) (p : process) :
  sd_bus_message_read_s m = inr c ->
  getter attr what dev0 m p =
  (Done (Returned c), log (EvStderr "Failed to parse parameters: " (- c)) p).
Proof. intros H. unfold getter. now rewrite H. Qed.

(** A getter from the point where its pointer is not a device object. *)
Lemma getter_off_object (attr what : string) (dev0 : device_ptr) (name : string)
    (p : process) (dev : device_ptr) (p1 : process) :
  resolve dev0 "backlight" name p = (Done dev, p1) ->
  match dev with
  | NULL => True
  | Obj id => find_obj id (objects p1) = None
  | Wild => True
  end ->
  getter attr what dev0 (call_s name) p =
  (match dev with NULL => Done device_does_not_exist | _ => Stuck end, p1).
Proof.
  intros Hr Ho.
  unfold getter, call_s. cbn [sd_bus_message_read_s].
  unfold bind at 1. rewrite Hr.
  destruct dev as [|id|]; cbn [is_null]; [reflexivity| |reflexivity].
  exec_live Ho. reflexivity.
Qed.

Lemma find_obj_opened (p : process) (path sn : string) (evs : list event) :
  find_obj (next_id p) (objects (opened p path sn evs)) =
  Some (mk_obj (next_id p) path sn).
Proof. unfold find_obj, opened. cbn [objects find obj_id]. now rewrite Nat.eqb_refl. Qed.

Lemma remove_obj_fresh (p : process) :
  fresh p -> remove_obj (next_id p) (objects p) = objects p.
Proof.
  unfold fresh, remove_obj. induction 1 as [|o os Ho _ IH]; cbn [filter].
  - reflexivity.
  - destruct (Nat.eqb_spec (obj_id o) (next_id p)); [lia|]. cbn [negb]. now rewrite IH.
Qed.

Lemma remove_obj_opened (p : process) (path sn : string) (evs : list event) :
  fresh p ->
  remove_obj (next_id p) (objects (opened p path sn evs)) = objects p.
Proof.
  intros Hf. unfold opened. cbn [objects]. unfold remove_obj. cbn [filter obj_id].
  rewrite Nat.eqb_refl. cbn [negb]. now apply remove_obj_fresh.
Qed.

Lemma fresh_next (p p' : process) :
  fresh p -> objects p' = objects p -> next_id p' = S (next_id p) -> fresh p'.
Proof.
  unfold fresh. intros Hf -> ->. eapply Forall_impl; [|exact Hf].
  cbv beta. intros o Ho. lia.
Qed.

(** What a getter replies is what the attribute file of some device says;
    when the name stands for a device, of that device. *)
Lemma getter_reply_sound (attr what : string) (dev0 : device_ptr)
    (m : sd_bus_message) (p : process) (x : Z) :
  fst (getter attr what dev0 m p) = Done (Reply x) ->
  exists name path text,
    sd_bus_message_read_s m = inl name /\
    attr_at path attr (sysfs p) = Some text /\
    x = atoi text /\
    (forall path0, target "backlight" name (sysfs p) = Some path0 -> path0 = path).
Proof.
  destruct (sd_bus_message_read_s m) as [name|c] eqn:Hm.
  2:{ rewrite (getter_unparsed _ _ _ _ _ _ Hm). discriminate. }
  rewrite (getter_message _ _ _ _ _ Hm).
  destruct (resolve_cases dev0 "backlight" name p)
    as [(path & sn & evs & Ht & Hr & _) | [(Ht & Hne & Hr) | (Ht & -> & Hr)]].
  - destruct (getter_on_object attr what _ _ _ _ _ _ Hr (find_obj_opened _ _ _ _))
      as (p' & E & _).
    rewrite E. cbn [fst obj_syspath opened sysfs].
    destruct (attr_at path attr (sysfs p)) as [text|] eqn:Ha; [|discriminate].
    intros [= <-]. exists name, path, text. repeat split; try assumption.
    congruence.
  - rewrite (getter_off_object attr what _ _ _ _ _ Hr I). discriminate.
  - destruct dev0 as [|id|].
    + rewrite (getter_off_object attr what _ _ _ _ _ Hr I). discriminate.
    + destruct (find_obj id (objects (log (EvScan "backlight") p))) as [o|] eqn:Ho.
      * destruct (getter_on_object attr what _ _ _ _ _ _ Hr Ho) as (p' & E & _).
        rewrite E. cbn [fst log sysfs].
        destruct (attr_at (obj_syspath o) attr (sysfs p)) as [text|] eqn:Ha;
          [|discriminate].
        intros [= <-]. exists "", (obj_syspath o), text.
        repeat split; try assumption. congruence.
      * rewrite (getter_off_object attr what _ _ _ _ _ Hr Ho). discriminate.
    + rewrite (getter_off_object attr what _ _ _ _ _ Hr I). discriminate.
Qed.

(** A getter that comes back has released the device object it created. *)
Lemma getter_releases (attr what : string) (dev0 : device_ptr)
    (m : sd_bus_message) (p : process) (o : outcome) :
  fresh p ->
  (forall name, sd_bus_message_read_s m = inl name ->
     target "backlight" name (sysfs p) = None -> name = "" -> dev0 = NULL) ->
  fst (getter attr what dev0 m p) = Done o ->
  objects (snd (getter attr what dev0 m p)) = objects p /\
  fresh (snd (getter attr what dev0 m p)).
Proof.
  intros Hf Hdev.
  destruct (sd_bus_message_read_s m) as [name|c] eqn:Hm.
  2:{ rewrite (getter_unparsed _ _ _ _ _ _ Hm). intros _. split; [reflexivity | exact Hf]. }
  rewrite (getter_message _ _ _ _ _ Hm). specialize (Hdev name eq_refl).
  destruct (resolve_cases dev0 "backlight" name p)
    as [(path & sn & evs & Ht & Hr & _) | [(Ht & Hne & Hr) | (Ht & -> & Hr)]].
  - destruct (getter_on_object attr what _ _ _ _ _ _ Hr (find_obj_opened _ _ _ _))
      as (p' & E & _ & Hn & Hobj).
    rewrite E. cbn [fst snd]. cbn [obj_syspath] in *.
    destruct (attr_at path attr (sysfs (opened p path sn evs))); [|discriminate].
    intros _. rewrite remove_obj_opened in Hobj by exact Hf.
    assert (Ho' : objects p' = objects p) by (apply Hobj; discriminate).
    split; [exact Ho'|]. now apply (fresh_next p).
  - rewrite (getter_off_object attr what _ _ _ _ _ Hr I). intros _.
    split; [reflexivity | exact Hf].
  - rewrite (Hdev Ht eq_refl) in *.
    rewrite (getter_off_object attr what _ _ _ _ _ Hr I). intros _.
    split; [reflexivity | exact Hf].
Qed.

Lemma setbrightness_message (dev0 : device_ptr) (m : sd_bus_message)
    (name : string) (value : Z) :
  sd_bus_message_read_si m = inl (name, value) ->
  method_setbrightness dev0 m = method_setbrightness dev0 (call_si name value).
Proof.
  intros H. unfold method_setbrightness, call_si. cbn [sd_bus_message_read_si].
  now rewrite H.
Qed.

Lemma setbrightness_unparsed (dev0 : device_ptr) (m : sd_bus_message) (c : Z)
    (p : process) :
  sd_bus_message_read_si m = inr c ->
  method_setbrightness dev0 m p =
  (Done (Returned c), log (EvStderr "Failed to parse parameters: " (- c)) p).
Proof. intros H. unfold method_setbrightness. now rewrite H. Qed.

Lemma read_si_code (m : sd_bus_message) (c : Z) :
  sd_bus_message_read_si m = inr c -> c < 0.
Proof.
  unfold sd_bus_message_read_si.
  destruct m as [|[s|i] [|[s'|i'] m']]; try discriminate; intros [= <-]; reflexivity.
Qed.


Lemma setbrightness_off_object (dev0 : device_ptr) (name : string) (value : Z)
    (p : process) (dev : device_ptr) (p1 : process) :
  0 <= value ->
  resolve dev0 "backlight" name p = (Done dev, p1) ->
  match dev with
  | NULL => True
  | Obj id => find_obj id (objects p1) = None
  | Wild => True
  end ->
  method_setbrightness dev0 (call_si name value) p =
  (match dev with NULL => Done device_does_not_exist | _ => Stuck end, p1).
Proof.
  intros Hpos Hr Ho.
  unfold method_setbrightness, call_si. cbn [sd_bus_message_read_si].
  destruct (Z.ltb_spec value 0); [lia|].
  unfold bind at 1. rewrite Hr.
  destruct dev as [|id|]; cbn [is_null]; [reflexivity| |reflexivity].
  exec_live Ho. reflexivity.
Qed.

(** The setter from the point where its pointer is a device object: the
    five ways it can end. *)
Lemma setbrightness_on_object (dev0 : device_ptr) (name : string) (value : Z)
    (p : process) (id : nat) (p1 : process) (o : device_obj) :
  0 <= value ->
  resolve dev0 "backlight" name p = (Done (Obj id), p1) ->
  find_obj id (objects p1) = Some o ->
  exists r p',
    method_setbrightness dev0 (call_si name value) p = (r, p') /\
    next_id p' = next_id p1 /\
    ((attr_at (obj_syspath o) "max_brightness" (sysfs p1) = None /\
      r = Stuck /\ sysfs p' = sysfs p1) \/
     exists text,
       attr_at (obj_syspath o) "max_brightness" (sysfs p1) = Some text /\
       ((atoi text < value /\
         r = Done (Error SD_BUS_ERROR_INVALID_ARGS
                     ("Value must be smaller than " ++ decimal (atoi text) ++ ".")
                     (- EINVAL)) /\
         sysfs p' = sysfs p1 /\ objects p' = objects p1) \/
        (value <= atoi text /\ ~ fits_val value /\
         r = Stuck /\ sysfs p' = sysfs p1) \/
        (value <= atoi text /\ fits_val value /\
         writable_at (obj_syspath o) "brightness" (sysfs p1) = true /\
         r = Done (Reply value) /\
         sysfs p' = store (obj_syspath o) "brightness" (decimal value) (sysfs p1) /\
         objects p' = remove_obj id (objects p1)) \/
        (value <= atoi text /\ fits_val value /\
         writable_at (obj_syspath o) "brightness" (sysfs p1) = false /\
         (exists c, c < 0 /\
                    r = Done (Error SD_BUS_ERROR_ACCESS_DENIED "Not authorized." c)) /\
         sysfs p' = sysfs p1 /\
         objects p' = remove_obj id (objects p1)))).
Proof.
  intros Hpos Hr Ho.
  pose proof (find_obj_id _ _ _ Ho) as Hid.
  unfold method_setbrightness, call_si. cbn [sd_bus_message_read_si].
  destruct (Z.ltb_spec value 0); [lia|].
  unfold bind at 1. rewrite Hr. cbn [is_null].
  exec_live Ho.
  destruct (attr_at (obj_syspath o) "max_brightness" (sysfs p1)) as [text|];
    exec_live Ho.
  2:{ do 2 eexists. split; [reflexivity|]. split; [reflexivity|]. left. auto. }
  destruct (Z.ltb_spec (atoi text) value).
  { do 2 eexists. split; [reflexivity|]. split; [reflexivity|].
    right. exists text. split; [reflexivity|]. left. auto. }
  unfold sprintf_d, fits_val.
  destruct (Nat.leb_spec (S (String.length (decimal value))) 10); exec_live Ho.
  2:{ do 2 eexists. split; [reflexivity|]. split; [reflexivity|].
      right. exists text. split; [reflexivity|]. right. left.
      repeat split; try assumption. lia. }
  unfold writable_at.
  destruct (find (at_path (obj_syspath o)) (sysfs p1)) as [d|];
    [destruct (assoc "brightness" (dev_attrs d)) as [a|];
     [destruct (attr_writable a)|]|];
    exec_live Ho;
    [change (0 <? 0) with false
    |change (- EACCES <? 0) with true
    |change (- ENOENT <? 0) with true
    |change (- ENOENT <? 0) with true];
    exec_live Ho; rewrite Hid;
    do 2 eexists; (split; [reflexivity|]); (split; [reflexivity|]);
    right; exists text; (split; [reflexivity|]); right; right.
  - left. repeat split; try assumption; lia.
  - right. repeat split; try assumption; try lia. eexists; split; [|reflexivity]. reflexivity.
  - right. repeat split; try assumption; try lia. eexists; split; [|reflexivity]. reflexivity.
  - right. repeat split; try assumption; try lia. eexists; split; [|reflexivity]. reflexivity.
Qed.

Lemma unwritten_intro (p : process) (r : result outcome) (p' : process) :
  sysfs p' = sysfs p ->
  (r = Stuck \/ exists k msg c, c < 0 /\ r = Done (Error k msg c)) ->
  unwritten p r p'.
Proof.
  intros Hs [->|(k & msg & c & Hc & ->)]; repeat split; try assumption;
    try discriminate; intros; congruence.
Qed.

(** Every run of the setter on a value that is not negative either leaves
    the store as it is and is no success, or is the one success. *)
Lemma setbrightness_store_call (dev0 : device_ptr) (name : string) (value : Z)
    (p : process) :
  0 <= value ->
  exists r p',
    method_setbrightness dev0 (call_si name value) p = (r, p') /\
    (failed p r p' \/ written p name value r p').
Proof.
  intros Hpos.
  assert (Hon : forall id p1 o,
             (forall path0, target "backlight" name (sysfs p) = Some path0 ->
                            path0 = obj_syspath o) ->
             sysfs p1 = sysfs p ->
             resolve dev0 "backlight" name p = (Done (Obj id), p1) ->
             find_obj id (objects p1) = Some o ->
             exists r p',
               method_setbrightness dev0 (call_si name value) p = (r, p') /\
               (failed p r p' \/ written p name value r p')).
  { intros id p1 o same Hs Hr Ho.
    destruct (setbrightness_on_object dev0 name value p id p1 o Hpos Hr Ho)
      as (r & p' & E & _ & H).
    exists r, p'. split; [exact E|]. rewrite Hs in H.
    destruct H as [(_ & -> & Hs') | (text & Ha & [H | [H | [H | H]]])].
    - left. split; auto.
    - destruct H as (_ & -> & Hs' & _). left. split; [exact Hs'|].
      right. do 3 eexists. split; [|reflexivity]. reflexivity.
    - destruct H as (_ & _ & -> & Hs'). left. split; auto.
    - destruct H as (Hle & Hfit & Hw & -> & Hs' & _). right.
      exists (obj_syspath o), text. repeat split; try assumption.
    - destruct H as (_ & _ & _ & (c & Hc & ->) & Hs' & _). left.
      split; [exact Hs'|]. right. do 3 eexists.
      split; [exact Hc | reflexivity]. }
  assert (Hoff : forall dev p1,
             sysfs p1 = sysfs p ->
             resolve dev0 "backlight" name p = (Done dev, p1) ->
             match dev with
             | NULL => True
             | Obj id => find_obj id (objects p1) = None
             | Wild => True
             end ->
             exists r p',
               method_setbrightness dev0 (call_si name value) p = (r, p') /\
               (failed p r p' \/ written p name value r p')).
  { intros dev p1 Hs Hr Ho.
    rewrite (setbrightness_off_object dev0 name value p dev p1 Hpos Hr Ho).
    do 2 eexists. split; [reflexivity|]. left. split; [exact Hs|].
    destruct dev; [right | left; reflexivity | left; reflexivity].
    do 3 eexists. split; [|reflexivity]. reflexivity. }
  destruct (resolve_cases dev0 "backlight" name p)
    as [(path & sn & evs & Ht & Hr & _) | [(Ht & Hne & Hr) | (Ht & -> & Hr)]].
  - apply (Hon (next_id p) (opened p path sn evs) (mk_obj (next_id p) path sn));
      [intros path0 H; cbn [obj_syspath]; congruence | reflexivity | exact Hr
      | apply find_obj_opened].
  - refine (Hoff _ _ _ Hr I); reflexivity.
  - destruct dev0 as [|id|].
    + refine (Hoff _ _ _ Hr I); reflexivity.
    + destruct (find_obj id (objects (log (EvScan "backlight") p))) as [o|] eqn:Ho.
      * apply (Hon id (log (EvScan "backlight") p) o);
          [intros path0 H; congruence | reflexivity | exact Hr | exact Ho].
      * refine (Hoff _ _ _ Hr Ho); reflexivity.
    + refine (Hoff _ _ _ Hr I); reflexivity.
Qed.

(** The same for every message. *)
Lemma setbrightness_store (dev0 : device_ptr) (m : sd_bus_message) (p : process) :
  exists r p',
    method_setbrightness dev0 m p = (r, p') /\
    (unwritten p r p' \/
     exists name value,
       sd_bus_message_read_si m = inl (name, value) /\ written p name value r p').
Proof.
  destruct (sd_bus_message_read_si m) as [[name value]|c] eqn:Hm.
  2:{ rewrite (setbrightness_unparsed _ _ _ _ Hm). do 2 eexists. split; [reflexivity|].
      left. repeat split; try discriminate.
      intros c' [= <-]. exact (read_si_code _ _ Hm). }
  rewrite (setbrightness_message _ _ _ _ Hm).
  destruct (Z.ltb_spec value 0) as [Hneg|Hpos].
  { rewrite (HandlerFacts.setbrightness_negative dev0 name value p Hneg).
    do 2 eexists. split; [reflexivity|]. left. apply unwritten_intro; [reflexivity|].
    right. do 3 eexists. split; [|reflexivity]. reflexivity. }
  destruct (setbrightness_store_call dev0 name value p Hpos) as (r & p' & E & H).
  exists r, p'. split; [exact E|].
  destruct H as [[Hs H]|H];
    [left; now apply unwritten_intro | right; exists name, value; auto].
Qed.

(** The ways a getter can end on a message it can read. *)
Lemma getter_summary_call (attr what : string) (dev0 : device_ptr)
    (name : string) (p : process) :
  fst (getter attr what dev0 (call_s name) p) = Stuck \/
  fst (getter attr what dev0 (call_s name) p) = Done device_does_not_exist \/
  (exists x, fst (getter attr what dev0 (call_s name) p) = Done (Reply x)).
Proof.
  assert (Hon : forall id p1 o,
             resolve dev0 "backlight" name p = (Done (Obj id), p1) ->
             find_obj id (objects p1) = Some o ->
             fst (getter attr what dev0 (call_s name) p) = Stuck \/
             fst (getter attr what dev0 (call_s name) p) = Done device_does_not_exist \/
             (exists x, fst (getter attr what dev0 (call_s name) p) = Done (Reply x))).
  { intros id p1 o Hr Ho.
    destruct (getter_on_object attr what _ _ _ _ _ _ Hr Ho) as (p' & E & _).
    rewrite E. cbn [fst].
    destruct (attr_at (obj_syspath o) attr (sysfs p1)); [|left; reflexivity].
    right. right. eexists. reflexivity. }
  assert (Hoff : forall dev p1,
             resolve dev0 "backlight" name p = (Done dev, p1) ->
             match dev with
             | NULL => True
             | Obj id => find_obj id (objects p1) = None
             | Wild => True
             end ->
             fst (getter attr what dev0 (call_s name) p) = Stuck \/
             fst (getter attr what dev0 (call_s name) p) = Done device_does_not_exist \/
             (exists x, fst (getter attr what dev0 (call_s name) p) = Done (Reply x))).
  { intros dev p1 Hr Ho. rewrite (getter_off_object attr what _ _ _ _ _ Hr Ho).
    destruct dev; cbn [fst]; auto. }
  destruct (resolve_cases dev0 "backlight" name p)
    as [(path & sn & evs & Ht & Hr & _) | [(Ht & Hne & Hr) | (Ht & -> & Hr)]].
  - exact (Hon _ _ _ Hr (find_obj_opened _ _ _ _)).
  - exact (Hoff _ _ Hr I).
  - destruct dev0 as [|id|].
    + exact (Hoff _ _ Hr I).
    + destruct (find_obj id (objects (log (EvScan "backlight") p))) as [o|] eqn:Ho.
      * exact (Hon _ _ _ Hr Ho).
      * exact (Hoff _ _ Hr Ho).
    + exact (Hoff _ _ Hr I).
Qed.


(** The result of a getter on a name that stands for a device. *)
Lemma getter_resolved (attr what : string) (dev0 : device_ptr) (name : string)
    (p : process) (path : string) :
  target "backlight" name (sysfs p) = Some path ->
  fst (getter attr what dev0 (call_s name) p) =
  match attr_at path attr (sysfs p) with
  | Some text => Done (Reply (atoi text))
  | None => Stuck
  end.
Proof.
  intros Ht. destruct (resolve_found dev0 _ _ _ _ Ht) as (sn & evs & Hr & _).
  destruct (getter_on_object attr what _ _ _ _ _ _ Hr (find_obj_opened _ _ _ _))
    as (p' & E & _).
  now rewrite E.
Qed.

(** *** What a write leaves alone *)

Lemma assoc_assoc_set_other (k k' text : string) (l : list (string * sysattr)) :
  k' <> k -> assoc k' (assoc_set k text l) = assoc k' l.
Proof.
  intros Hne. induction l as [|[k0 v] l IH]; cbn [assoc assoc_set]; [reflexivity|].
  destruct (String.eqb_spec k0 k) as [->|Hk]; cbn [assoc].
  - destruct (String.eqb_spec k k'); [congruence | reflexivity].
  - destruct (String.eqb k0 k'); [reflexivity | exact IH].
Qed.


Lemma attr_at_store_other (path k text path' k' : string) (fs : list sysdev) :
  path' <> path \/ k' <> k ->
  attr_at path' k' (store path k text fs) = attr_at path' k' fs.
Proof.
  intros Hne. unfold attr_at.
  induction fs as [|d fs IH]; cbn [store find]; [reflexivity|].
  destruct (at_path path d) eqn:E; cbn [find].
  - unfold at_path in *. cbn [dev_syspath].
    destruct (String.eqb_spec (dev_syspath d) path') as [Hp|Hp]; [|reflexivity].
    cbn [dev_attrs]. apply String.eqb_eq in E.
    destruct Hne as [Hne|Hne]; [congruence|].
    now rewrite assoc_assoc_set_other.
  - destruct (at_path path' d); [reflexivity | exact IH].
Qed.


Lemma attr_at_written (path text : string) (fs : list sysdev) :
  writable_at path "brightness" fs = true ->
  attr_at path "brightness" (store path "brightness" text fs) = Some text.
Proof.
  intros Hw. destruct (writable_at_found _ _ _ Hw) as (d & a & Hd & Hk & _).
  apply (attr_at_store _ _ _ _ (attr_text a)). unfold attr_at. now rewrite Hd, Hk.
Qed.

(** The first device that a scan lists answers to its own name. *)
Lemma first_listed_named (subsystem : string) (fs : list sysdev) (d : sysdev)
    (rest : list sysdev) :
  filter (in_subsystem subsystem) fs = d :: rest ->
  find (named subsystem (dev_sysname d)) fs = Some d.
Proof.
  induction fs as [|a fs IH]; cbn [filter find]; [discriminate|].
  unfold named at 1. unfold in_subsystem at 1.
  destruct (String.eqb (dev_subsystem a) subsystem); cbn [andb].
  - intros [= -> _]. now rewrite String.eqb_refl.
  - exact IH.
Qed.

End ExecFacts.

Import Objects.

(** ** What the replies mean *)

(** X1: whatever a getter replies is [atoi] of the text that the attribute
    file of a device holds, hence a value of the 32-bit reply type; when
    the name of the request stands for a device, the file is of that
    device. *)
Theorem getter_reply_is_attribute_value
    (attr : string) (h : device_ptr -> sd_bus_message -> M outcome)
    (dev0 : device_ptr) (m : sd_bus_message) (p : process) (x : Z) :
  In (attr, h) getters ->
  fst (h dev0 m p) = Done (Reply x) ->
  exists name path text,
    sd_bus_message_read_s m = inl name /\
    attr_at path attr (sysfs p) = Some text /\
    x = atoi text /\
    INT_MIN <= x <= INT_MAX /\
    (forall path0, target "backlight" name (sysfs p) = Some path0 -> path0 = path).
Proof.
  intros Hin Hx.
  assert (Hg : exists what, h = getter attr what).
  { destruct Hin as [[= <- <-]|[[= <- <-]|[[= <- <-]|[]]]]; eexists; reflexivity. }
  destruct Hg as (what & ->).
  destruct (ExecFacts.getter_reply_sound _ _ _ _ _ _ Hx)
    as (name & path & text & Hm & Ha & -> & Ht).
  exists name, path, text. repeat split; try assumption;
    apply LibcFacts.atoi_range.
Qed.

Lemma getter_reply_is_attribute_value_witness :
  exists name path text,
    sd_bus_message_read_s (call_s "") = inl name /\
    attr_at path "max_brightness" (sysfs laptop) = Some text /\
    100 = atoi text /\
    INT_MIN <= 100 <= INT_MAX /\
    (forall path0, target "backlight" name (sysfs laptop) = Some path0 -> path0 = path).
Proof.
  apply (getter_reply_is_attribute_value "max_brightness" method_getmaxbrightness
           Wild (call_s "") laptop 100).
  - right. left. reflexivity.
  - reflexivity.
Defined.

(** X2: a getter that comes back, with a reply or with an error, has
    released the device object it created: the objects allocated after the
    call are those allocated before it. *)
Theorem getter_releases_device_object
    (attr : string) (h : device_ptr -> sd_bus_message -> M outcome)
    (dev0 : device_ptr) (m : sd_bus_message) (p : process) (o : outcome) :
  In (attr, h) getters ->
  fresh p ->
  pointer_harmless name_s dev0 m p ->
  fst (h dev0 m p) = Done o ->
  objects (snd (h dev0 m p)) = objects p /\ fresh (snd (h dev0 m p)).
Proof.
  intros Hin Hf Hp Ho.
  assert (Hg : exists what, h = getter attr what).
  { destruct Hin as [[= <- <-]|[[= <- <-]|[[= <- <-]|[]]]]; eexists; reflexivity. }
  destruct Hg as (what & ->).
  apply (ExecFacts.getter_releases attr what dev0 m p o Hf); [|exact Ho].
  intros name Hm Ht ->. apply Hp; [|exact Ht].
  unfold name_s. now rewrite Hm.
Qed.

Lemma getter_releases_device_object_witness :
  objects (snd (method_getbrightness Wild (call_s "intel_backlight") laptop)) = [] /\
  objects (snd (method_getactualbrightness NULL (call_s "") headless)) = [].
Proof.
  split.
  - refine (proj1 (getter_releases_device_object "brightness" method_getbrightness
                     Wild (call_s "intel_backlight") laptop (Reply 40)
                     (or_introl eq_refl) (Forall_nil _) _ eq_refl)).
    intros H. discriminate H.
  - refine (proj1 (getter_releases_device_object "actual_brightness"
                     method_getactualbrightness NULL (call_s "") headless
                     device_does_not_exist
                     (or_intror (or_intror (or_introl eq_refl))) (Forall_nil _) _ eq_refl)).
    intros _ _. reflexivity.
Defined.

(** X3: a success reply of setbrightness means what it says: the value
    replied is the value of the request, it lies between 0 and the max that
    the max_brightness file of the device held, and the brightness file of
    that device now holds its decimal text, which reads back as the value. *)
Theorem setbrightness_reply_means_written
    (dev0 : device_ptr) (m : sd_bus_message) (p : process) (v : Z) :
  fst (method_setbrightness dev0 m p) = Done (Reply v) ->
  exists name path text,
    sd_bus_message_read_si m = inl (name, v) /\
    attr_at path "max_brightness" (sysfs p) = Some text /\
    0 <= v <= atoi text /\
    attr_at path "brightness" (sysfs (snd (method_setbrightness dev0 m p))) =
      Some (decimal v) /\
    atoi (decimal v) = v /\
    (forall path0, target "backlight" name (sysfs p) = Some path0 -> path0 = path).
Proof.
  destruct (ExecFacts.setbrightness_store dev0 m p) as (r & p' & E & H).
  rewrite E. cbn [fst snd]. intros ->.
  destruct H as [(_ & Hno & _) | (name & value & Hm & path & text & Hr & Hfit & Ha & Hw & Hv & Hs & Ht)].
  - now elim (Hno v).
  - injection Hv as <-. exists name, path, text.
    split; [exact Hm|]. split; [exact Ha|]. split; [exact Hr|].
    split; [rewrite Hs; now apply ExecFacts.attr_at_written|].
    split; [|exact Ht].
    apply LibcFacts.atoi_decimal. pose proof (LibcFacts.atoi_range text). lia.
Qed.

Lemma setbrightness_reply_means_written_witness :
  exists name path text,
    sd_bus_message_read_si (call_si "" 60) = inl (name, 60) /\
    attr_at path "max_brightness" (sysfs laptop) = Some text /\
    0 <= 60 <= atoi text /\
    attr_at path "brightness"
      (sysfs (snd (method_setbrightness Wild (call_si "" 60) laptop))) =
      Some (decimal 60) /\
    atoi (decimal 60) = 60 /\
    (forall path0, target "backlight" name (sysfs laptop) = Some path0 -> path0 = path).
Proof.
  apply (setbrightness_reply_means_written Wild (call_si "" 60) laptop 60).
  reflexivity.
Defined.






(** X7: the empty name is another name of the first backlight device that
    a scan lists: for every state in which that device has a name, each
    getter gives the same result for "" and for that name. *)
Theorem empty_name_is_first_listed_device
    (attr : string) (h : device_ptr -> sd_bus_message -> M outcome)
    (dev0 dev1 : device_ptr) (p : process) (d : sysdev) (rest : list sysdev) :
  In (attr, h) getters ->
  filter (in_subsystem "backlight") (sysfs p) = d :: rest ->
  dev_sysname d <> "" ->
  fst (h dev0 (call_s "") p) = fst (h dev1 (call_s (dev_sysname d)) p).
Proof.
  intros Hin Hs Hne.
  assert (Hg : exists what, h = getter attr what).
  { destruct Hin as [[= <- <-]|[[= <- <-]|[[= <- <-]|[]]]]; eexists; reflexivity. }
  destruct Hg as (what & ->).
  assert (H0 : target "backlight" "" (sysfs p) = Some (dev_syspath d))
    by (unfold target; cbn [String.eqb]; now rewrite Hs).
  assert (H1 : target "backlight" (dev_sysname d) (sysfs p) = Some (dev_syspath d)).
  { unfold target. destruct (String.eqb_spec (dev_sysname d) ""); [contradiction|].
    now rewrite (ExecFacts.first_listed_named _ _ _ _ Hs). }
  now rewrite (ExecFacts.getter_resolved _ _ _ _ _ _ H0),
    (ExecFacts.getter_resolved _ _ _ _ _ _ H1).
Qed.

Lemma empty_name_is_first_listed_device_witness :
  fst (method_getbrightness Wild (call_s "") laptop) =
  fst (method_getbrightness NULL (call_s "intel_backlight") laptop).
Proof.
  refine (empty_name_is_first_listed_device "brightness" method_getbrightness
            Wild NULL laptop (backlight "intel_backlight" "40" "100" true) []
            (or_introl eq_refl) eq_refl _).
  discriminate.
Defined.

(** * The frame capture handler and the dispatch *)

Module CaptureFacts.

Import Capture StoreFacts ResolveFacts FrameFacts ExecFacts.

Section WithCamera.

Variable double : Type.
Variable capture_frames : option string -> Z -> double.
Variable devnode : string -> option string.
Variable printf_lf : double -> string.

Local Abbreviation captureframes := (method_captureframes double capture_frames devnode printf_lf).

Local Opaque String.append.

Ltac exec_capture Ho :=
  repeat (progress
    (unfold udev_device_get_devnode, udev_device_get_sysname, udev_device_unref,
       on_object, bind, emit, ret, undefined, log, with_objects;
     cbn [sysfs objects next_id trace is_null fst snd];
     rewrite ?Ho)).

Lemma captureframes_message (dev0 : device_ptr) (m : sd_bus_message)
    (name : string) (n : Z) :
  sd_bus_message_read_si m = inl (name, n) ->
  captureframes dev0 m = captureframes dev0 (call_si name n).
Proof.
  intros H. unfold method_captureframes, call_si. cbn [sd_bus_message_read_si].
  now rewrite H.
Qed.

Lemma captureframes_unparsed (dev0 : device_ptr) (m : sd_bus_message) (c : Z)
    (p : process) :
  sd_bus_message_read_si m = inr c ->
  captureframes dev0 m p =
  (Done (CaptureReturned c), log (EvStderr "Failed to parse parameters: " (- c)) p).
Proof. intros H. unfold method_captureframes. now rewrite H. Qed.

Lemma captureframes_on_object (dev0 : device_ptr) (name : string) (n : Z)
    (p : process) (id : nat) (p1 : process) (o : device_obj) :
  resolve dev0 "video4linux" name p = (Done (Obj id), p1) ->
  find_obj id (objects p1) = Some o ->
  exists p',
    captureframes dev0 (call_si name n) p =
    (Done (CaptureReply (capture_frames (devnode (obj_syspath o)) n)), p') /\
    sysfs p' = sysfs p1 /\
    next_id p' = next_id p1 /\
    objects p' = remove_obj id (objects p1).
Proof.
  intros Hr Ho. pose proof (find_obj_id _ _ _ Ho) as Hid.
  unfold method_captureframes, call_si. cbn [sd_bus_message_read_si].
  unfold bind at 1. rewrite Hr. cbn [is_null].
  exec_capture Ho. rewrite Hid. eexists. repeat split.
Qed.

Lemma captureframes_off_object (dev0 : device_ptr) (name : string) (n : Z)
    (p : process) (dev : device_ptr) (p1 : process) :
  resolve dev0 "video4linux" name p = (Done dev, p1) ->
  match dev with
  | NULL => True
  | Obj id => find_obj id (objects p1) = None
  | Wild => True
  end ->
  captureframes dev0 (call_si name n) p =
  (match dev with
   | NULL => Done (CaptureError SD_BUS_ERROR_FILE_NOT_FOUND "Device does not exist." (-1))
   | _ => Stuck
   end, p1).
Proof.
  intros Hr Ho.
  unfold method_captureframes, call_si. cbn [sd_bus_message_read_si].
  unfold bind at 1. rewrite Hr.
  destruct dev as [|id|]; cbn [is_null]; [reflexivity| |reflexivity].
  exec_capture Ho. reflexivity.
Qed.

Lemma ro_get_devnode (dev : device_ptr) :
  read_only (udev_device_get_devnode devnode dev).
Proof. apply ro_on_object; [apply ro_ret | intros o; apply ro_ret]. Qed.

Lemma ro_captureframes (dev0 : device_ptr) (m : sd_bus_message) :
  read_only (captureframes dev0 m).
Proof.
  unfold method_captureframes.
  destruct (sd_bus_message_read_si m) as [[name n]|r].
  - apply ro_bind; [apply ro_resolve | intros dev].
    destruct (is_null dev); [apply ro_ret|].
    apply ro_bind; [apply ro_get_devnode | intros node].
    apply ro_bind; [apply ro_get_sysname | intros sn].
    apply ro_bind; [now apply ro_emit | intros _].
    apply ro_bind; [apply ro_unref | intros _; apply ro_ret].
  - apply ro_bind; [now apply ro_emit | intros _; apply ro_ret].
Qed.

(** The ways the capture handler can end on a message it can read. *)
Lemma captureframes_summary_call (dev0 : device_ptr) (name : string) (n : Z)
    (p : process) :
  fst (captureframes dev0 (call_si name n) p) = Stuck \/
  fst (captureframes dev0 (call_si name n) p) =
    Done (CaptureError SD_BUS_ERROR_FILE_NOT_FOUND "Device does not exist." (-1)) \/
  (exists val, fst (captureframes dev0 (call_si name n) p) = Done (CaptureReply val)).
Proof.
  assert (Hon : forall id p1 o,
             resolve dev0 "video4linux" name p = (Done (Obj id), p1) ->
             find_obj id (objects p1) = Some o ->
             exists val, fst (captureframes dev0 (call_si name n) p) =
                         Done (CaptureReply val)).
  { intros id p1 o Hr Ho.
    destruct (captureframes_on_object dev0 name n p id p1 o Hr Ho) as (p' & E & _).
    rewrite E. eexists. reflexivity. }
  assert (Hoff : forall dev p1,
             resolve dev0 "video4linux" name p = (Done dev, p1) ->
             match dev with
             | NULL => True
             | Obj id => find_obj id (objects p1) = None
             | Wild => True
             end ->
             fst (captureframes dev0 (call_si name n) p) = Stuck \/
             fst (captureframes dev0 (call_si name n) p) =
               Done (CaptureError SD_BUS_ERROR_FILE_NOT_FOUND
                       "Device does not exist." (-1))).
  { intros dev p1 Hr Ho. rewrite (captureframes_off_object dev0 name n p dev p1 Hr Ho).
    destruct dev; cbn [fst]; auto. }
  destruct (resolve_cases dev0 "video4linux" name p)
    as [(path & sn & evs & Ht & Hr & _) | [(Ht & Hne & Hr) | (Ht & -> & Hr)]].
  - right. right. exact (Hon _ _ _ Hr (find_obj_opened _ _ _ _)).
  - destruct (Hoff _ _ Hr I); auto.
  - destruct dev0 as [|id|].
    + destruct (Hoff _ _ Hr I); auto.
    + destruct (find_obj id (objects (log (EvScan "video4linux") p))) as [o|] eqn:Ho.
      * right. right. exact (Hon _ _ _ Hr Ho).
      * destruct (Hoff _ _ Hr Ho); auto.
    + destruct (Hoff _ _ Hr I); auto.
Qed.

(** *** The dispatch *)

Local Abbreviation dispatch := (Capture.dispatch double capture_frames devnode printf_lf).
Local Abbreviation serve := (Capture.serve double capture_frames devnode printf_lf).

Lemma signature_s (m : sd_bus_message) :
  signature_of m = "s" -> exists s, m = call_s s.
Proof.
  unfold signature_of, call_s.
  destruct m as [|[s|i] [|[s'|i'] m']]; cbn; try discriminate;
    first [intros _; eexists; reflexivity | destruct m'; cbn; discriminate].
Qed.

Lemma signature_si (m : sd_bus_message) :
  signature_of m = "si" -> exists s i, m = call_si s i.
Proof.
  unfold signature_of, call_si.
  destruct m as [|[s|i] [|[s'|i'] [|[s''|i''] m']]]; cbn; try discriminate;
    first [intros _; do 2 eexists; reflexivity | destruct m'; cbn; discriminate].
Qed.

Lemma int_handler_answered (h : device_ptr -> sd_bus_message -> M outcome)
    (dev0 : device_ptr) (m : sd_bus_message) (p : process) :
  bind (int_handler double h dev0 m) (fun o => ret (Some o)) p =
  answered OfInt (h dev0 m p).
Proof.
  unfold int_handler, answered, bind, ret. destruct (h dev0 m p) as [[o|] p']; reflexivity.
Qed.

Lemma double_handler_answered
    (h : device_ptr -> sd_bus_message -> M (capture_outcome double))
    (dev0 : device_ptr) (m : sd_bus_message) (p : process) :
  bind (double_handler h dev0 m) (fun o => ret (Some o)) p =
  answered OfDouble (h dev0 m p).
Proof.
  unfold double_handler, answered, bind, ret. destruct (h dev0 m p) as [[o|] p']; reflexivity.
Qed.

(** A call either reaches no handler, or reaches the handler registered
    for its member with arguments of the registered signature. *)
Lemma dispatch_runs (dev0 : device_ptr) (c : method_call) (p : process) :
  dispatch dev0 c p = (Done None, p) \/
  (exists name value,
     call_args c = call_si name value /\
     dispatch dev0 c p = answered OfInt (method_setbrightness dev0 (call_si name value) p)) \/
  (exists attr h name,
     In (attr, h) getters /\
     call_args c = call_s name /\
     dispatch dev0 c p = answered OfInt (h dev0 (call_s name) p)) \/
  (exists name n,
     call_args c = call_si name n /\
     dispatch dev0 c p = answered OfDouble (captureframes dev0 (call_si name n) p)).
Proof.
  unfold Capture.dispatch, find_method, calculator_vtable. cbn [find vt_member].
  destruct (String.eqb "setbrightness" (call_member c)).
  { cbn [vt_signature vt_handler].
    destruct (String.eqb_spec "si" (signature_of (call_args c))) as [E|_]; [|now left].
    destruct (signature_si _ (eq_sym E)) as (name & value & ->).
    right. left. exists name, value. split; [reflexivity|]. apply int_handler_answered. }
  destruct (String.eqb "getbrightness" (call_member c)).
  { cbn [vt_signature vt_handler].
    destruct (String.eqb_spec "s" (signature_of (call_args c))) as [E|_]; [|now left].
    destruct (signature_s _ (eq_sym E)) as (name & ->).
    right. right. left. exists "brightness", method_getbrightness, name.
    split; [left; reflexivity|]. split; [reflexivity|]. apply int_handler_answered. }
  destruct (String.eqb "getmaxbrightness" (call_member c)).
  { cbn [vt_signature vt_handler].
    destruct (String.eqb_spec "s" (signature_of (call_args c))) as [E|_]; [|now left].
    destruct (signature_s _ (eq_sym E)) as (name & ->).
    right. right. left. exists "max_brightness", method_getmaxbrightness, name.
    split; [right; left; reflexivity|]. split; [reflexivity|]. apply int_handler_answered. }
  destruct (String.eqb "getactualbrightness" (call_member c)).
  { cbn [vt_signature vt_handler].
    destruct (String.eqb_spec "s" (signature_of (call_args c))) as [E|_]; [|now left].
    destruct (signature_s _ (eq_sym E)) as (name & ->).
    right. right. left. exists "actual_brightness", method_getactualbrightness, name.
    split; [right; right; left; reflexivity|]. split; [reflexivity|].
    apply int_handler_answered. }
  destruct (String.eqb "captureframes" (call_member c)); [|now left].
  cbn [vt_signature vt_handler].
  destruct (String.eqb_spec "si" (signature_of (call_args c))) as [E|_]; [|now left].
  destruct (signature_si _ (eq_sym E)) as (name & n & ->).
  right. right. right. exists name, n. split; [reflexivity|].
  apply double_handler_answered.
Qed.

Lemma getters_getter (attr : string) (h : device_ptr -> sd_bus_message -> M outcome) :
  In (attr, h) getters -> exists what, h = getter attr what.
Proof.
  intros [[= <- <-]|[[= <- <-]|[[= <- <-]|[]]]]; eexists; reflexivity.
Qed.

(** What one call does to the store. *)
Lemma dispatch_store (dev0 : device_ptr) (c : method_call) (p : process) :
  sysfs (snd (dispatch dev0 c p)) = sysfs p \/
  exists path value text,
    0 <= value <= atoi text /\
    attr_at path "max_brightness" (sysfs p) = Some text /\
    sysfs (snd (dispatch dev0 c p)) =
    store path "brightness" (decimal value) (sysfs p).
Proof.
  destruct (dispatch_runs dev0 c p)
    as [E | [(name & value & _ & E) | [(attr & h & name & Hin & _ & E)
                                      | (name & n & _ & E)]]];
    rewrite E; cbn [answered snd].
  - now left.
  - destruct (setbrightness_store dev0 (call_si name value) p) as (r & p' & E' & H).
    rewrite E'. cbn [snd].
    destruct H as [(Hs & _) | (name' & value' & _ & path & text & Hr & _ & Ha & _ & _ & Hs & _)].
    + now left.
    + right. exists path, value', text. auto.
  - left. destruct (getters_getter _ _ Hin) as (what & ->). apply ro_getter.
  - left. apply ro_captureframes.
Qed.




Lemma attr_at_store_same (path k text b : string) (fs : list sysdev) :
  attr_at path k (store path k text fs) = Some b -> b = text.
Proof.
  unfold attr_at. induction fs as [|d fs IH]; cbn [store find]; [discriminate|].
  destruct (at_path path d) eqn:E; cbn [find].
  - unfold at_path in *. cbn [dev_syspath]. rewrite E. cbn [dev_attrs].
    induction (dev_attrs d) as [|[k0 v] l IHl]; cbn [assoc_set assoc]; [discriminate|].
    destruct (String.eqb k0 k) eqn:Ek; cbn [assoc]; rewrite Ek.
    + cbn. now intros [= <-].
    + exact IHl.
  - rewrite E. exact IH.
Qed.

Lemma in_range_store (path text : string) (value : Z) (fs : list sysdev) :
  in_range fs ->
  0 <= value <= atoi text ->
  attr_at path "max_brightness" fs = Some text ->
  in_range (store path "brightness" (decimal value) fs).
Proof.
  intros Hin Hv Hmax path' b m Hb Hm.
  rewrite attr_at_store_other in Hm by (right; discriminate).
  destruct (String.eqb_spec path' path) as [->|Hne].
  - apply attr_at_store_same in Hb. subst b.
    assert (m = text) by congruence. subst m.
    rewrite LibcFacts.atoi_decimal; [exact Hv|].
    pose proof (LibcFacts.atoi_range text). lia.
  - rewrite attr_at_store_other in Hb by (now left).
    exact (Hin _ _ _ Hb Hm).
Qed.


(** X13: the range of brightness is an invariant of the service: when
    every brightness file holds a value between 0 and the max beside it, the
    same is true after any calls, whatever their arguments. *)
Theorem serve_keeps_in_range
    (calls : list (device_ptr * method_call)) (p : process) :
  in_range (sysfs p) -> in_range (sysfs (serve calls p)).
Proof.
  revert p. induction calls as [|[dev0 c] calls IH]; intros p Hin; cbn [Capture.serve].
  - exact Hin.
  - assert (Hstep : in_range (sysfs (snd (dispatch dev0 c p)))).
    { destruct (dispatch_store dev0 c p) as [E | (path & value & text & Hv & Ha & E)];
        rewrite E; [exact Hin | now apply (in_range_store path text)]. }
    destruct (dispatch dev0 c p) as [[o|] p1]; cbn [snd] in Hstep.
    + exact (IH p1 Hstep).
    + exact Hstep.
Qed.

(** X11: under the dispatch no handler fails to read its message: the
    format each handler reads is the signature the table registers for it,
    so a handler that the dispatch runs never takes the exit of a failed
    [sd_bus_message_read]. *)
Theorem dispatched_handler_reads_its_message
    (dev0 : device_ptr) (c : method_call) (p : process) (o : method_outcome double) :
  fst (dispatch dev0 c p) = Done (Some o) ->
  (forall code, o <> OfInt (Returned code)) /\
  (forall code, o <> OfDouble (CaptureReturned code)).
Proof.
  destruct (dispatch_runs dev0 c p)
    as [E | [(name & value & _ & E) | [(attr & h & name & Hin & _ & E)
                                      | (name & n & _ & E)]]];
    rewrite E; cbn [answered fst].
  - discriminate.
  - destruct (Z.ltb_spec value 0) as [Hneg|Hpos].
    + rewrite (HandlerFacts.setbrightness_negative dev0 name value p Hneg). cbn [fst].
      intros [= <-]. split; intros; discriminate.
    + destruct (setbrightness_store_call dev0 name value p Hpos) as (r & p' & E' & H).
      rewrite E'. cbn [fst].
      destruct H as [(_ & [-> | (k & msg & code & _ & ->)])
                    | (path & text & _ & _ & _ & _ & -> & _)];
        try discriminate; intros [= <-]; split; intros; discriminate.
  - destruct (getters_getter _ _ Hin) as (what & ->).
    destruct (getter_summary_call attr what dev0 name p) as [H | [H | (x & H)]];
      rewrite H; try discriminate; intros [= <-]; split; intros; discriminate.
  - destruct (captureframes_summary_call dev0 name n p) as [H | [H | (x & H)]];
      rewrite H; try discriminate; intros [= <-]; split; intros; discriminate.
Qed.

(** X8: for a name that stands for a video4linux device, captureframes
    replies what [capture_frames] returns for the device file of that
    device and the number of frames of the request, which it passes on
    unchecked, negative or not; the attribute store is untouched and the
    device object released. *)
Theorem captureframes_replies_capture
    (dev0 : device_ptr) (name : string) (n : Z) (p : process) (path : string) :
  target "video4linux" name (sysfs p) = Some path ->
  fresh p ->
  exists p',
    captureframes dev0 (call_si name n) p =
    (Done (CaptureReply (capture_frames (devnode path) n)), p') /\
    sysfs p' = sysfs p /\
    objects p' = objects p.
Proof.
  intros Ht Hf.
  destruct (resolve_found dev0 _ _ _ _ Ht) as (sn & evs & Hr & _).
  destruct (captureframes_on_object dev0 name n p _ _ _ Hr (find_obj_opened _ _ _ _))
    as (p' & E & Hs & _ & Ho).
  exists p'. split; [exact E|]. split; [exact Hs|].
  rewrite Ho. now apply remove_obj_opened.
Qed.

(** X9: captureframes looks a name up among the video4linux devices only:
    for a name that is not empty and is the name of no such device, be it
    the name of a backlight device, it fails with NotFound, and
    [capture_frames] has no part in the result. *)
Theorem captureframes_missing_device
    (dev0 : device_ptr) (name : string) (n : Z) (p : process) :
  name <> "" ->
  find (named "video4linux" name) (sysfs p) = None ->
  captureframes dev0 (call_si name n) p =
  (Done (CaptureError NotFound "Device does not exist." (-1)),
   log (EvNewFromSubsystemSysname "video4linux" name) p).
Proof.
  intros Hne Hnone.
  apply (captureframes_off_object dev0 name n p NULL); [|exact I].
  now apply resolve_missing.
Qed.

(** X10: captureframes writes no attribute, on any message, pointer and
    state. *)
Theorem captureframes_writes_nothing
    (dev0 : device_ptr) (m : sd_bus_message) (p : process) :
  sysfs (snd (captureframes dev0 m p)) = sysfs p /\
  read_only (captureframes dev0 m).
Proof. split; [apply ro_captureframes | apply ro_captureframes]. Qed.

End WithCamera.

Lemma laptop_in_range : in_range (sysfs laptop).
Proof.
  intros path b m. unfold attr_at, laptop, boot, backlight. cbn [sysfs find].
  unfold at_path. cbn [dev_syspath].
  destruct (String.eqb _ path); [|discriminate].
  cbn. intros [= <-] [= <-]. vm_compute. split; discriminate.
Qed.

Lemma serve_keeps_in_range_witness :
  in_range
    (sysfs (serve Z (fun _ n => n) (fun _ => None) decimal
              [(Wild, mk_call "setbrightness" (call_si "" 60));
               (NULL, mk_call "setbrightness" (call_si "intel_backlight" 150));
               (Wild, mk_call "getbrightness" (call_s ""))]
              laptop)).
Proof. apply serve_keeps_in_range. exact laptop_in_range. Defined.

Lemma dispatched_handler_reads_its_message_witness :
  fst (dispatch Z (fun _ n => n) (fun _ => None) decimal
         NULL (mk_call "getmaxbrightness" (call_s "")) laptop) =
    Done (Some (OfInt (Reply 100))) /\
  @OfInt Z (Reply 100) <> OfInt (Returned (- ENXIO)).
Proof.
  split; [reflexivity|].
  exact (proj1 (dispatched_handler_reads_its_message Z (fun _ n => n) (fun _ => None)
                  decimal NULL (mk_call "getmaxbrightness" (call_s "")) laptop
                  (OfInt (Reply 100)) eq_refl) (- ENXIO)).
Defined.

Lemma captureframes_replies_capture_witness :
  exists p',
    method_captureframes Z (fun _ n => n) (fun path => Some ("/dev/video0"%string))
      decimal Wild (call_si "video0" (-3)) headless =
    (Done (CaptureReply (-3)), p') /\
    sysfs p' = sysfs headless /\
    objects p' = objects headless.
Proof.
  apply (captureframes_replies_capture Z (fun _ n => n)
           (fun path => Some ("/dev/video0"%string)) decimal
           Wild "video0" (-3) headless "/sys/class/video4linux/video0").
  - reflexivity.
  - constructor.
Defined.

Lemma captureframes_missing_device_witness :
  fst (method_captureframes Z (fun _ n => n) (fun _ => None) decimal
         NULL (call_si "intel_backlight" 5) laptop) =
  Done (CaptureError NotFound "Device does not exist." (-1)).
Proof.
  rewrite (captureframes_missing_device Z (fun _ n => n) (fun _ => None) decimal
             NULL "intel_backlight" 5 laptop); [reflexivity | discriminate | reflexivity].
Defined.

End CaptureFacts.

(** * [main] *)

Module MainFacts.

Import Clightd World Main.

(** Induction for a loop that takes one code or two in a turn. *)
Lemma pair_induction (P : list Z -> Prop) :
  P [] ->
  (forall r, P [r]) ->
  (forall r r' codes, P codes -> P (r' :: codes) -> P (r :: r' :: codes)) ->
  forall codes, P codes.
Proof.
  intros Hnil Hone Hstep codes.
  assert (H : P codes /\ forall r, P (r :: codes)); [|exact (proj1 H)].
  induction codes as [|r' codes [IH1 IH2]].
  - split; [exact Hnil | exact Hone].
  - split; [apply IH2 | intros r; apply Hstep; [exact IH1 | apply IH2]].
Qed.

Lemma serve_loop_two (r r' : Z) (codes : list Z) :
  serve_loop (r :: r' :: codes) =
  if r <? 0 then
    (BusProcess r :: Stderr "Failed to process bus: " (- r) :: finish true true r,
     r' :: codes)
  else if 0 <? r then
    let (t, rest) := serve_loop (r' :: codes) in (BusProcess r :: t, rest)
  else if r' <? 0 then
    (BusProcess r :: BusWait r' ::
     Stderr "Failed to wait on bus: " (- r') :: finish true true r',
     codes)
  else
    let (t, rest) := serve_loop codes in
    (BusProcess r :: BusWait r' :: t, rest).
Proof. reflexivity. Qed.

Ltac loop_cases r r' :=
  rewrite (serve_loop_two r r');
  destruct (Z.ltb_spec r 0);
  [|destruct (Z.ltb_spec 0 r);
    [|destruct (Z.ltb_spec r' 0)]].

Lemma serve_loop_rest (codes : list Z) :
  snd (serve_loop codes) = after_error codes.
Proof.
  induction codes as [| r | r r' codes IH1 IH2] using pair_induction.
  - reflexivity.
  - cbn. destruct (r <? 0); [reflexivity|]. destruct (0 <? r); reflexivity.
  - cbn [after_error]. loop_cases r r'.
    + reflexivity.
    + cbn [after_error] in IH2. destruct (serve_loop (r' :: codes)). exact IH2.
    + reflexivity.
    + destruct (serve_loop codes). exact IH1.
Qed.

Lemma serve_loop_exit (codes : list Z) :
  exit_code (fst (serve_loop codes)) =
  if existsb negative codes then Some EXIT_FAILURE else None.
Proof.
  unfold negative.
  induction codes as [| r | r r' codes IH1 IH2] using pair_induction.
  - reflexivity.
  - cbn. destruct (Z.ltb_spec r 0); [|destruct (0 <? r); reflexivity].
    cbn. destruct (Z.ltb_spec r 0); [reflexivity | lia].
  - cbn [existsb]. loop_cases r r'; cbn [orb].
    + cbn. destruct (Z.ltb_spec r 0); [reflexivity | lia].
    + cbn [existsb] in IH2. destruct (serve_loop (r' :: codes)). exact IH2.
    + cbn. destruct (Z.ltb_spec r' 0); [reflexivity | lia].
    + destruct (serve_loop codes). exact IH1.
Qed.

Lemma serve_loop_released (codes : list Z) :
  filter is_release (fst (serve_loop codes)) =
  if existsb negative codes then [SlotUnref; BusUnref; UdevUnref] else [].
Proof.
  unfold negative.
  induction codes as [| r | r r' codes IH1 IH2] using pair_induction.
  - reflexivity.
  - cbn. destruct (r <? 0); [reflexivity|]. destruct (0 <? r); reflexivity.
  - cbn [existsb]. loop_cases r r'; cbn [orb].
    + reflexivity.
    + cbn [existsb] in IH2. destruct (serve_loop (r' :: codes)). exact IH2.
    + reflexivity.
    + destruct (serve_loop codes). exact IH1.
Qed.

Lemma serve_loop_acquires_nothing (codes : list Z) :
  existsb got_bus (fst (serve_loop codes)) = false /\
  existsb got_slot (fst (serve_loop codes)) = false.
Proof.
  induction codes as [| r | r r' codes IH1 IH2] using pair_induction.
  - split; reflexivity.
  - cbn. destruct (r <? 0); [split; reflexivity|]. destruct (0 <? r); split; reflexivity.
  - loop_cases r r'.
    + split; reflexivity.
    + destruct (serve_loop (r' :: codes)). exact IH2.
    + split; reflexivity.
    + destruct (serve_loop codes). exact IH1.
Qed.

(** *** The order of the calls *)

Lemma adjacent_cons_inv (a b x : main_event) (t : list main_event) :
  adjacent a b (x :: t) ->
  (x = a /\ exists t', t = b :: t') \/ adjacent a b t.
Proof.
  intros ([|y pre] & post & E); cbn in E; injection E as -> ->.
  - left. split; [reflexivity | eexists; reflexivity].
  - right. exists pre, post. reflexivity.
Qed.

Lemma paced_nil : paced [].
Proof. intros a b ([|y pre] & post & E); discriminate E. Qed.

Lemma paced_cons (x : main_event) (t : list main_event) :
  paced t ->
  (forall b t', t = b :: t' -> in_step x b) ->
  paced (x :: t).
Proof.
  intros Ht Hx a b H. destruct (adjacent_cons_inv _ _ _ _ H) as [(-> & t' & E) | H'].
  - exact (Hx b t' E).
  - exact (Ht a b H').
Qed.

Ltac step_ok :=
  unfold in_step; repeat split; intros; subst; try discriminate;
  repeat match goal with
         | H : BusProcess _ = BusProcess _ |- _ => injection H as H; subst
         | H : BusWait _ = BusWait _ |- _ => injection H as H; subst
         end;
  try lia; try (eexists; reflexivity).

(** Events of which the first is no call of the loop and none is a wait. *)
Lemma paced_quiet (t : list main_event) :
  forallb (fun e => negb (is_serving e)) t = true -> paced t.
Proof.
  induction t as [|x t IH]; cbn [forallb]; intros H.
  - apply paced_nil.
  - apply andb_prop in H. destruct H as [Hx Ht].
    apply paced_cons; [exact (IH Ht)|].
    intros b t' ->. cbn [forallb] in Ht. apply andb_prop in Ht. destruct Ht as [Hb _].
    destruct x; try discriminate Hx; destruct b; try discriminate Hb; step_ok.
Qed.

Lemma finish_quiet (slot bus : bool) (r : Z) :
  forallb (fun e => negb (is_serving e)) (finish slot bus r) = true.
Proof. destruct slot, bus; reflexivity. Qed.

Lemma serve_loop_head (codes : list Z) :
  fst (serve_loop codes) = [] \/
  exists r t, fst (serve_loop codes) = BusProcess r :: t.
Proof.
  destruct codes as [|r [|r' codes]].
  - now left.
  - right. cbn [serve_loop].
    destruct (r <? 0); [|destruct (0 <? r)]; do 2 eexists; reflexivity.
  - right. rewrite serve_loop_two.
    destruct (r <? 0); [do 2 eexists; reflexivity|].
    destruct (0 <? r).
    + destruct (serve_loop (r' :: codes)). do 2 eexists; reflexivity.
    + destruct (r' <? 0); [do 2 eexists; reflexivity|].
      destruct (serve_loop codes). do 2 eexists; reflexivity.
Qed.

Lemma paced_failed (e : main_event) (r : Z) (text : string) (slot bus : bool) :
  r < 0 -> e = BusProcess r \/ e = BusWait r ->
  paced (e :: Stderr text (- r) :: finish slot bus r).
Proof.
  intros Hr He. apply paced_cons.
  - apply paced_quiet. cbn [forallb is_serving negb andb]. apply finish_quiet.
  - intros b t' [= <- _]. destruct He as [-> | ->]; step_ok.
Qed.

Lemma serve_loop_paced (codes : list Z) : paced (fst (serve_loop codes)).
Proof.
  induction codes as [| r | r r' codes IH1 IH2] using pair_induction.
  - apply paced_nil.
  - cbn [serve_loop]. destruct (Z.ltb_spec r 0).
    + apply paced_failed; auto.
    + destruct (0 <? r); cbn [fst]; (apply paced_cons; [apply paced_nil | discriminate]).
  - loop_cases r r'.
    + apply paced_failed; auto.
    + pose proof (serve_loop_head (r' :: codes)) as Hh.
      destruct (serve_loop (r' :: codes)) as [t rest]. cbn [fst] in *.
      apply paced_cons; [exact IH2|].
      intros b t' ->. destruct Hh as [Hh | (r2 & t2 & [= -> _])]; [discriminate|].
      step_ok.
    + assert (r = 0) by lia. subst r. cbn [fst]. apply paced_cons.
      * apply paced_failed; auto.
      * intros b t' [= <- _]. step_ok.
    + assert (r = 0) by lia. subst r.
      pose proof (serve_loop_head codes) as Hh.
      destruct (serve_loop codes) as [t rest]. cbn [fst] in *.
      apply paced_cons; [apply paced_cons; [exact IH1|]|].
      * intros b t' ->. destruct Hh as [Hh | (r2 & t2 & [= -> _])]; [discriminate|].
        step_ok.
      * intros b t' [= <- _]. step_ok.
Qed.

Ltac main_cases codes :=
  destruct codes as [|r1 [|r2 [|r3 codes]]]; cbn [main];
  [ | destruct (Z.ltb_spec r1 0)
    | destruct (Z.ltb_spec r1 0); [|destruct (Z.ltb_spec r2 0)]
    | destruct (Z.ltb_spec r1 0);
      [|destruct (Z.ltb_spec r2 0); [|destruct (Z.ltb_spec r3 0)]] ].

Ltac ltb_known :=
  repeat match goal with
         | H : ?r < 0 |- context [?r <? 0] =>
             replace (r <? 0) with true by (symmetry; apply Z.ltb_lt; exact H)
         | H : 0 <= ?r |- context [?r <? 0] =>
             replace (r <? 0) with false by (symmetry; apply Z.ltb_ge; exact H)
         | H : 0 <= ?r |- context [0 <=? ?r] =>
             replace (0 <=? r) with true by (symmetry; apply Z.leb_le; exact H)
         | H : ?r < 0 |- context [0 <=? ?r] =>
             replace (0 <=? r) with false by (symmetry; apply Z.leb_gt; exact H)
         end.

(** X14: [main] returns exactly when a call of the transport, in the
    setup or in the loop, returns a negative code; it then returns
    EXIT_FAILURE, never EXIT_SUCCESS, and makes no call after the failed
    one. *)
Theorem main_returns_on_error_only (codes : list Z) :
  exit_code (fst (main codes)) =
    (if existsb negative codes then Some EXIT_FAILURE else None) /\
  snd (main codes) = after_error codes.
Proof.
  unfold negative.
  main_cases codes; cbn [existsb after_error fst snd]; ltb_known;
    cbn [orb exit_code finish app]; ltb_known; try (split; reflexivity).
  pose proof (serve_loop_exit codes) as He. pose proof (serve_loop_rest codes) as Hr.
  unfold negative in He.
  destruct (serve_loop codes) as [t rest]. cbn [fst snd exit_code] in *.
  split; assumption.
Qed.

(** X15: [main] releases what it acquired and nothing else: while it runs
    it releases nothing, and when it returns it has released the slot if
    [sd_bus_add_object_vtable] succeeded, then the bus if
    [sd_bus_default_system] succeeded, then the udev context, each once. *)
Theorem main_releases_what_it_acquired (codes : list Z) :
  let t := fst (main codes) in
  filter is_release t =
  match exit_code t with
  | None => []
  | Some _ =>
      ((if existsb got_slot t then [SlotUnref] else []) ++
       (if existsb got_bus t then [BusUnref] else []) ++ [UdevUnref])%list
  end.
Proof.
  cbv zeta.
  main_cases codes;
    cbn [fst filter is_release exit_code existsb got_bus got_slot finish app orb];
    ltb_known; cbn [orb]; try reflexivity.
  pose proof (serve_loop_exit codes) as He.
  pose proof (serve_loop_released codes) as Hr.
  destruct (serve_loop_acquires_nothing codes) as [Hb Hs].
  destruct (serve_loop codes) as [t rest]. cbn [fst] in *.
  cbn [fst filter is_release exit_code existsb got_bus got_slot orb].
  ltb_known. cbn [orb].
  rewrite He, Hr. destruct (existsb negative codes); reflexivity.
Qed.

(** X16: the two calls of the loop keep their order in every run of
    [main]: [sd_bus_wait] is called only directly after an
    [sd_bus_process] that returned 0, and is called then; after an
    [sd_bus_process] that did work and after a wait that came back, the
    next call is [sd_bus_process]. *)
Theorem main_waits_only_when_idle (codes : list Z) (a b : main_event) :
  adjacent a b (fst (main codes)) -> in_step a b.
Proof.
  revert a b. change (paced (fst (main codes))).
  main_cases codes; cbn [fst];
    try (apply paced_quiet; cbn [forallb is_serving negb andb];
         first [reflexivity | apply finish_quiet]).
  pose proof (serve_loop_paced codes) as Hp.
  pose proof (serve_loop_head codes) as Hh.
  destruct (serve_loop codes) as [t rest]. cbn [fst] in *.
  repeat (apply paced_cons; [|intros b t' [= <- _]; step_ok]).
  apply paced_cons; [exact Hp|].
  intros b t' ->. destruct Hh as [Hh | (r & t2 & [= -> _])]; [discriminate|].
  step_ok.
Qed.

Lemma main_waits_only_when_idle_witness :
  in_step (BusProcess 0) (BusWait 1) /\ in_step (BusWait 1) (BusProcess 2).
Proof.
  split.
  - apply (main_waits_only_when_idle [0; 0; 0; 0; 1; 2; -5]).
    exists [UdevNew; BusDefaultSystem 0;
            BusAddObjectVtable object_path bus_interface 0;
            BusRequestName bus_interface 0].
    eexists. reflexivity.
  - apply (main_waits_only_when_idle [0; 0; 0; 0; 1; 2; -5]).
    exists [UdevNew; BusDefaultSystem 0;
            BusAddObjectVtable object_path bus_interface 0;
            BusRequestName bus_interface 0; BusProcess 0].
    eexists. reflexivity.
Defined.

(** X17: when one of the three setup calls fails, [main] serves nothing:
    its trace has no call of [sd_bus_process] or [sd_bus_wait]. *)
Theorem failed_setup_serves_nothing (codes : list Z) :
  existsb negative (firstn 3 codes) = true ->
  filter is_serving (fst (main codes)) = [].
Proof.
  unfold negative.
  main_cases codes; cbn [firstn existsb fst]; ltb_known; cbn [orb];
    try discriminate; intros _; cbn [filter is_serving finish app];
    reflexivity.
Qed.

Lemma failed_setup_serves_nothing_witness :
  filter is_serving (fst (main [0; 0; -16; 1; 1])) = [].
Proof. apply (failed_setup_serves_nothing [0; 0; -16; 1; 1]). reflexivity. Defined.

End MainFacts.

(** ** The device object of setbrightness *)

(** X18: setbrightness that comes back has released the device object it
    created on every path but one: the rejection of a value above the
    max, where the object stays allocated. *)
Theorem setbrightness_keeps_object_only_over_max
    (dev0 : device_ptr) (m : sd_bus_message) (p : process) (o : outcome) :
  fresh p ->
  pointer_harmless name_si dev0 m p ->
  fst (method_setbrightness dev0 m p) = Done o ->
  objects (snd (method_setbrightness dev0 m p)) = objects p \/
  (exists name value text obj,
     sd_bus_message_read_si m = inl (name, value) /\
     atoi text < value /\
     o = Error InvalidArgument
           ("Value must be smaller than " ++ decimal (atoi text) ++ ".") (- EINVAL) /\
     objects (snd (method_setbrightness dev0 m p)) = obj :: objects p).
Proof.
  intros Hf Hp.
  destruct (sd_bus_message_read_si m) as [[name value]|c] eqn:Hm.
  2:{ rewrite (ExecFacts.setbrightness_unparsed _ _ _ _ Hm). intros _. now left. }
  rewrite (ExecFacts.setbrightness_message _ _ _ _ Hm).
  assert (Hp' : name = "" -> target "backlight" "" (sysfs p) = None -> dev0 = NULL).
  { intros ->. apply Hp. unfold name_si. now rewrite Hm. }
  clear Hp.
  destruct (Z.ltb_spec value 0) as [Hneg|Hpos].
  { rewrite (HandlerFacts.setbrightness_negative dev0 name value p Hneg). now left. }
  destruct (ExecFacts.resolve_cases dev0 "backlight" name p)
    as [(path & sn & evs & Ht & Hr & _) | [(Ht & Hne & Hr) | (Ht & -> & Hr)]].
  - destruct (ExecFacts.setbrightness_on_object dev0 name value p _ _ _ Hpos Hr
                (ExecFacts.find_obj_opened _ _ _ _))
      as (r & p' & E & _ & H).
    rewrite E. cbn [fst snd]. intros ->.
    destruct H as [(_ & Hr' & _) | (text & _ & [H | [H | [H | H]]])].
    + discriminate Hr'.
    + destruct H as (Hgt & Hr' & _ & Ho). right.
      exists name, value, text, (mk_obj (next_id p) path sn).
      injection Hr' as ->. repeat split; try assumption.
    + destruct H as (_ & _ & Hr' & _). discriminate Hr'.
    + destruct H as (_ & _ & _ & _ & _ & Ho). left.
      rewrite Ho. now apply ExecFacts.remove_obj_opened.
    + destruct H as (_ & _ & _ & _ & _ & Ho). left.
      rewrite Ho. now apply ExecFacts.remove_obj_opened.
  - rewrite (ExecFacts.setbrightness_off_object dev0 name value p _ _ Hpos Hr I).
    intros _. now left.
  - rewrite (Hp' eq_refl Ht) in *.
    rewrite (ExecFacts.setbrightness_off_object NULL "" value p _ _ Hpos Hr I).
    intros _. now left.
Qed.

Lemma setbrightness_keeps_object_only_over_max_witness :
  objects (snd (method_setbrightness NULL (call_si "intel_backlight" 60) locked)) =
    objects locked /\
  exists obj,
    objects (snd (method_setbrightness Wild (call_si "" 101) laptop)) =
    obj :: objects laptop.
Proof.
  split.
  - destruct (setbrightness_keeps_object_only_over_max NULL
                (call_si "intel_backlight" 60) locked
                (Error AccessDenied "Not authorized." (- EACCES)))
      as [H | (name & value & text & obj & _ & _ & Ho & _)].
    + constructor.
    + intros H. discriminate H.
    + reflexivity.
    + exact H.
    + discriminate Ho.
  - destruct (setbrightness_keeps_object_only_over_max Wild (call_si "" 101) laptop
                (Error InvalidArgument "Value must be smaller than 100." (- EINVAL)))
      as [H | (name & value & text & obj & _ & _ & _ & Ho)].
    + constructor.
    + intros _ H. discriminate H.
    + reflexivity.
    + discriminate H.
    + exists obj. exact Ho.
Defined.

(** ** Calls in a row *)





